(** * timecapsule: a time-gated key/value store

    A shallow embedding of [timecapsule.go] (the in-memory engine) and
    [storage.go] (the backend-delegating engine), followed by the
    properties of the two engines.

    Modelling conventions.
    - An instant ([time.Time]) is an integer count of nanoseconds, a
      [time.Duration] an integer number of nanoseconds; the difference of
      two instants is a duration kept within the range of a 64-bit integer,
      as [Time.Sub] keeps it.  [time.Now()] is the [now] argument every
      operation takes (one clock reading per call, up to the point where
      the call parks).
    - A context is observed through [ctx.Err()] only.
    - A Go result pair [(T, error)] is a pair whose second component is
      [None] for [nil]; [var zero T] is the [zero] of class [Zero].
    - A method with a pointer receiver is a function from the receiver's
      state to a result and the state after the call.
    - The mutex of the in-memory engine is not modelled: every
      non-blocking call is one atomic step.  The blocking call
      [WaitForUnlock] is a tree whose [Select] node is the Go [select]
      statement; what other goroutines did while the caller was parked is
      the argument of the node's continuation. *)

From Stdlib Require Import ZArith String List Lia.
From stdpp Require Import base option gmap strings.

Local Open Scope string_scope.
Local Open Scope Z_scope.

(** ** The [time] package, as far as the engines use it *)

Module time.

Definition Time : Type := Z.
Definition Duration : Type := Z.

(** [t.Before(u)] *)
Definition Before (t u : Time) : bool := t <? u.

(** [t.Add(d)] *)
Definition Add (t : Time) (d : Duration) : Time := t + d.

(** The smallest and the largest [Duration], [-1 << 63] and [1<<63 - 1]. *)
Definition minDuration : Duration := -9223372036854775808.
Definition maxDuration : Duration := 9223372036854775807.

(** [t.Sub(u)]: the difference when it is a [Duration], and otherwise
    [minDuration] when [t] is before [u], [maxDuration] when it is after. *)
Definition Sub (t u : Time) : Duration :=
  let d := t - u in
  if (minDuration <=? d) && (d <=? maxDuration) then d
  else if Before t u then minDuration
  else maxDuration.

(** [time.Until(t)], read at clock value [now] *)
Definition Until (now t : Time) : Duration := Sub t now.

End time.

(** ** Errors and contexts *)

(** The three sentinel errors of the package, the two errors a context
    reports, and the errors of codecs and backends, opaque to the engines. *)
Inductive error : Type :=
| ErrCapsuleNotFound
| ErrCapsuleLocked
| ErrInvalidKey
| Canceled
| DeadlineExceeded
| ErrExternal (msg : string).

#[global] Instance error_eq_dec : EqDecision error.
Proof. solve_decision. Defined.

(** A [context.Context] at one instant: what [ctx.Err()] returns. *)
Record Context : Type := mkContext { Err : option error }.

Definition Background : Context := {| Err := None |}.
Definition cancelled (e : error) : Context := {| Err := Some e |}.

(** The zero value of a Go type. *)
Class Zero (T : Type) : Type := zero : T.

#[global] Instance Zero_string : Zero string := "".
#[global] Instance Zero_Z : Zero Z := 0.
#[global] Instance Zero_bytes : Zero (list Byte.byte) := [].

(** ** Data model *)

Module Capsule.
Record t (T : Type) : Type := mk {
  Value : T;
  UnlockTime : time.Time;
  CreatedAt : time.Time
}.
Arguments mk {T} _ _ _.
Arguments Value {T} _.
Arguments UnlockTime {T} _.
Arguments CreatedAt {T} _.
End Capsule.

Module Metadata.
Record t : Type := mk {
  UnlockTime : time.Time;
  CreatedAt : time.Time;
  IsLocked : bool
}.
(** [Metadata{}] *)
Definition empty : t := {| UnlockTime := 0; CreatedAt := 0; IsLocked := false |}.
End Metadata.

(** ** Blocking calls *)

(** How a parked [select] over [ctx.Done()] and a timer channel resumes:
    either the context is done, and [ctx.Err()] is then an error, or the
    timer fired; in both cases the store is what the other goroutines left,
    and after the timer the context and the clock are observed afresh. *)
Inductive Wake (S : Type) : Type :=
| CtxDone (err : error) (s : S)
| TimerFired (ctx : Context) (now : time.Time) (s : S).
Arguments CtxDone {S} _ _.
Arguments TimerFired {S} _ _ _.

(** A call that may park: it returns, or arms a one-shot timer of
    duration [d] and continues when woken up. *)
Inductive Blocking (S R : Type) : Type :=
| Return (r : R) (s : S)
| Select (d : time.Duration) (k : Wake S -> Blocking S R).
Arguments Return {S R} _ _.
Arguments Select {S R} _ _.

(** The number of timers a call arms along the schedule [ws] of wake-ups. *)
Fixpoint waits {S R : Type} (ws : list (Wake S)) (b : Blocking S R)
    {struct b} : nat :=
  match b with
  | Return _ _ => 0%nat
  | Select _ k =>
      match ws with
      | [] => 1%nat
      | w :: ws' => Datatypes.S (waits ws' (k w))
      end
  end.

(** The call [b] parks at most [n] times, whatever happens meanwhile. *)
Fixpoint parks_at_most {S R : Type} (n : nat) (b : Blocking S R)
    {struct b} : Prop :=
  match b with
  | Return _ _ => True
  | Select _ k =>
      match n with
      | O => False
      | Datatypes.S n' => forall w, parks_at_most n' (k w)
      end
  end.

(** ** The in-memory engine, [timecapsule.go] *)

Module MemoryTimeCapsule.
Section Engine.
Context {T : Type} `{Zero T}.

(** The [capsules] field, the only data of the struct. *)
Abbreviation capsules := (gmap string (Capsule.t T)).

(** [New]: [make(map[string]Capsule[T])] *)
Definition New : capsules := ∅.

Definition Store (ctx : Context) (now : time.Time) (key : string) (value : T)
    (unlockTime : time.Time) (tc : capsules) : option error * capsules :=
  match Err ctx with
  | Some err => (Some err, tc)
  | None =>
      if decide (key = "") then (Some ErrInvalidKey, tc)
      else
        let capsule :=
          {| Capsule.Value := value;
             Capsule.UnlockTime := unlockTime;
             Capsule.CreatedAt := now |} in
        (None, <[key := capsule]> tc)
  end.

Definition Open (ctx : Context) (now : time.Time) (key : string)
    (tc : capsules) : (T * option error) * capsules :=
  match Err ctx with
  | Some err => ((zero, Some err), tc)
  | None =>
      if decide (key = "") then ((zero, Some ErrInvalidKey), tc)
      else
        match tc !! key with
        | None => ((zero, Some ErrCapsuleNotFound), tc)
        | Some capsule =>
            if time.Before now (Capsule.UnlockTime capsule)
            then ((zero, Some ErrCapsuleLocked), tc)
            else ((Capsule.Value capsule, None), tc)
        end
  end.

Definition Peek (ctx : Context) (now : time.Time) (key : string)
    (tc : capsules) : (Metadata.t * option error) * capsules :=
  match Err ctx with
  | Some err => ((Metadata.empty, Some err), tc)
  | None =>
      if decide (key = "") then ((Metadata.empty, Some ErrInvalidKey), tc)
      else
        match tc !! key with
        | None => ((Metadata.empty, Some ErrCapsuleNotFound), tc)
        | Some capsule =>
            (({| Metadata.UnlockTime := Capsule.UnlockTime capsule;
                 Metadata.CreatedAt := Capsule.CreatedAt capsule;
                 Metadata.IsLocked :=
                   time.Before now (Capsule.UnlockTime capsule) |},
              None), tc)
        end
  end.

Definition Delay (ctx : Context) (now : time.Time) (key : string)
    (delay : time.Duration) (tc : capsules) : option error * capsules :=
  match Err ctx with
  | Some err => (Some err, tc)
  | None =>
      if decide (key = "") then (Some ErrInvalidKey, tc)
      else
        match tc !! key with
        | None => (Some ErrCapsuleNotFound, tc)
        | Some capsule =>
            let capsule' :=
              {| Capsule.Value := Capsule.Value capsule;
                 Capsule.UnlockTime := time.Add now delay;
                 Capsule.CreatedAt := Capsule.CreatedAt capsule |} in
            (None, <[key := capsule']> tc)
        end
  end.

Definition Delete (ctx : Context) (now : time.Time) (key : string)
    (tc : capsules) : option error * capsules :=
  match Err ctx with
  | Some err => (Some err, tc)
  | None =>
      if decide (key = "") then (Some ErrInvalidKey, tc)
      else
        match tc !! key with
        | None => (Some ErrCapsuleNotFound, tc)
        | Some _ => (None, delete key tc)
        end
  end.

Definition Exists (ctx : Context) (now : time.Time) (key : string)
    (tc : capsules) : bool * capsules :=
  match Err ctx with
  | Some _ => (false, tc)
  | None =>
      if decide (key = "") then (false, tc)
      else
        match tc !! key with
        | None => (false, tc)
        | Some _ => (true, tc)
        end
  end.

Definition WaitForUnlock (ctx : Context) (now : time.Time) (key : string)
    (tc : capsules) : Blocking capsules (T * option error) :=
  match Err ctx with
  | Some err => Return (zero, Some err) tc
  | None =>
      let '((metadata, err), tc1) := Peek ctx now key tc in
      match err with
      | Some err => Return (zero, Some err) tc1
      | None =>
          if negb (Metadata.IsLocked metadata) then
            let '(r, tc2) := Open ctx now key tc1 in Return r tc2
          else
            Select (time.Until now (Metadata.UnlockTime metadata))
              (fun w =>
                 match w with
                 | CtxDone err tc' => Return (zero, Some err) tc'
                 | TimerFired ctx' now' tc' =>
                     let '(r, tc2) := Open ctx' now' key tc' in Return r tc2
                 end)
      end
  end.

End Engine.
End MemoryTimeCapsule.

(** ** The backend-delegating engine, [storage.go] *)

(** The [Storage] interface.  A backend is any state type [S] with these
    methods; each of them may read the clock and change the backend. *)
Module Storage.
Class t (S : Type) : Type := {
  Store : Context -> time.Time -> string -> list Byte.byte -> time.Time ->
          S -> option error * S;
  Open : Context -> time.Time -> string -> S ->
         (list Byte.byte * option error) * S;
  Peek : Context -> time.Time -> string -> S ->
         (Metadata.t * option error) * S;
  Delete : Context -> time.Time -> string -> S -> option error * S;
  Exists : Context -> time.Time -> string -> S -> bool * S;
  Close : S -> option error * S
}.
End Storage.

(** The [Codec] interface. *)
Module Codec.
Class t (T : Type) : Type := {
  Encode : T -> list Byte.byte * option error;
  Decode : list Byte.byte -> T * option error
}.
End Codec.

Module PersistentTimeCapsule.
Section Engine.
Context {T S : Type} `{Zero T} `{Storage.t S} `{Codec.t T}.

Definition Store (ctx : Context) (now : time.Time) (key : string) (value : T)
    (unlockTime : time.Time) (tc : S) : option error * S :=
  match Err ctx with
  | Some err => (Some err, tc)
  | None =>
      if decide (key = "") then (Some ErrInvalidKey, tc)
      else
        let '(data, err) := Codec.Encode value in
        match err with
        | Some err => (Some err, tc)
        | None => Storage.Store ctx now key data unlockTime tc
        end
  end.

Definition Open (ctx : Context) (now : time.Time) (key : string)
    (tc : S) : (T * option error) * S :=
  match Err ctx with
  | Some err => ((zero, Some err), tc)
  | None =>
      if decide (key = "") then ((zero, Some ErrInvalidKey), tc)
      else
        let '((data, err), tc1) := Storage.Open ctx now key tc in
        match err with
        | Some err => ((zero, Some err), tc1)
        | None => (Codec.Decode data, tc1)
        end
  end.

Definition Peek (ctx : Context) (now : time.Time) (key : string)
    (tc : S) : (Metadata.t * option error) * S :=
  match Err ctx with
  | Some err => ((Metadata.empty, Some err), tc)
  | None =>
      if decide (key = "") then ((Metadata.empty, Some ErrInvalidKey), tc)
      else Storage.Peek ctx now key tc
  end.

Definition Delay (ctx : Context) (now : time.Time) (key : string)
    (delay : time.Duration) (tc : S) : option error * S :=
  match Err ctx with
  | Some err => (Some err, tc)
  | None =>
      if decide (key = "") then (Some ErrInvalidKey, tc)
      else
        (* Check if capsule exists *)
        let '((_, err), tc1) := Storage.Peek ctx now key tc in
        match err with
        | Some err => (Some err, tc1)
        | None =>
            (* Calculate new unlock time *)
            let newUnlockTime := time.Add now delay in
            (* Get the current value *)
            let '((data, err), tc2) := Storage.Open ctx now key tc1 in
            match err with
            | Some err => (Some err, tc2)
            | None =>
                (* Re-store with new unlock time *)
                Storage.Store ctx now key data newUnlockTime tc2
            end
        end
  end.

Definition Delete (ctx : Context) (now : time.Time) (key : string)
    (tc : S) : option error * S :=
  match Err ctx with
  | Some err => (Some err, tc)
  | None =>
      if decide (key = "") then (Some ErrInvalidKey, tc)
      else Storage.Delete ctx now key tc
  end.

Definition Exists (ctx : Context) (now : time.Time) (key : string)
    (tc : S) : bool * S :=
  match Err ctx with
  | Some _ => (false, tc)
  | None =>
      if decide (key = "") then (false, tc)
      else Storage.Exists ctx now key tc
  end.

Definition WaitForUnlock (ctx : Context) (now : time.Time) (key : string)
    (tc : S) : Blocking S (T * option error) :=
  match Err ctx with
  | Some err => Return (zero, Some err) tc
  | None =>
      let '((metadata, err), tc1) := Peek ctx now key tc in
      match err with
      | Some err => Return (zero, Some err) tc1
      | None =>
          if negb (Metadata.IsLocked metadata) then
            let '(r, tc2) := Open ctx now key tc1 in Return r tc2
          else
            Select (time.Until now (Metadata.UnlockTime metadata))
              (fun w =>
                 match w with
                 | CtxDone err tc' => Return (zero, Some err) tc'
                 | TimerFired ctx' now' tc' =>
                     let '(r, tc2) := Open ctx' now' key tc' in Return r tc2
                 end)
      end
  end.

End Engine.
End PersistentTimeCapsule.

(** ** A backend and a codec to run the backend-delegating engine on *)

(** Modelled from the spec: the repository declares the [Storage] interface
    and ships no implementation of it.  The spec describes a backend as the
    capsule store's own contract over byte payloads (store upserts a record
    with [createdAt] the current time, open succeeds only once the unlock
    time is reached, peek never fails on the lock state) with a concrete
    in-memory implementation; this is the in-memory engine at the value
    type of byte strings. *)
#[global] Instance MemoryStorage :
  Storage.t (gmap string (Capsule.t (list Byte.byte))) := {|
  Storage.Store := MemoryTimeCapsule.Store;
  Storage.Open := MemoryTimeCapsule.Open;
  Storage.Peek := MemoryTimeCapsule.Peek;
  Storage.Delete := MemoryTimeCapsule.Delete;
  Storage.Exists := MemoryTimeCapsule.Exists;
  Storage.Close := fun s => (None, s)
|}.

(** A codec for byte strings that stores them as they are. *)
#[global] Instance BytesCodec : Codec.t (list Byte.byte) := {|
  Codec.Encode := fun value => (value, None);
  Codec.Decode := fun data => (data, None)
|}.

(** A codec whose encoder rejects every value, the way an encoder fails on
    a value it has no encoding for. *)
Definition RejectingCodec : Codec.t Z := {|
  Codec.Encode := fun _ => ([], Some (ErrExternal "unsupported type"));
  Codec.Decode := fun _ => (0, None)
|}.

(** The backend-delegating engine over the in-memory backend. *)
Abbreviation backend := (gmap string (Capsule.t (list Byte.byte))).

(** The payload of the examples, the two bytes of "hi". *)
Definition hi : list Byte.byte := [Byte.x68; Byte.x69].

(** ** Clients of the in-memory engine *)

(** A client is a sequence of non-blocking calls on one store, each made
    under its own context and clock reading; only the store is threaded
    from one call to the next. *)
Module Client.
Section Calls.
Context {T : Type} `{Zero T}.

Inductive Call : Type :=
| CallStore (ctx : Context) (now : time.Time) (key : string) (value : T)
    (unlockTime : time.Time)
| CallOpen (ctx : Context) (now : time.Time) (key : string)
| CallPeek (ctx : Context) (now : time.Time) (key : string)
| CallDelay (ctx : Context) (now : time.Time) (key : string)
    (delay : time.Duration)
| CallDelete (ctx : Context) (now : time.Time) (key : string)
| CallExists (ctx : Context) (now : time.Time) (key : string).

(** The clock reading a call is made at. *)
Definition clock (c : Call) : time.Time :=
  match c with
  | CallStore _ now _ _ _ | CallOpen _ now _ | CallPeek _ now _
  | CallDelay _ now _ _ | CallDelete _ now _ | CallExists _ now _ => now
  end.

(** The key a call is about. *)
Definition key (c : Call) : string :=
  match c with
  | CallStore _ _ k _ _ | CallOpen _ _ k | CallPeek _ _ k
  | CallDelay _ _ k _ | CallDelete _ _ k | CallExists _ _ k => k
  end.

(** Whether a call is a [Delete] of [k]. *)
Definition deletes (k : string) (c : Call) : bool :=
  match c with
  | CallDelete _ _ key => bool_decide (key = k)
  | _ => false
  end.

(** Whether a call is a [Store] under [k]. *)
Definition stores (k : string) (c : Call) : bool :=
  match c with
  | CallStore _ _ key _ _ => bool_decide (key = k)
  | _ => false
  end.

(** The store a call leaves. *)
Definition apply (c : Call) (tc : gmap string (Capsule.t T)) :
    gmap string (Capsule.t T) :=
  match c with
  | CallStore ctx now key value unlockTime =>
      (MemoryTimeCapsule.Store ctx now key value unlockTime tc).2
  | CallOpen ctx now key => (MemoryTimeCapsule.Open ctx now key tc).2
  | CallPeek ctx now key => (MemoryTimeCapsule.Peek ctx now key tc).2
  | CallDelay ctx now key delay =>
      (MemoryTimeCapsule.Delay ctx now key delay tc).2
  | CallDelete ctx now key => (MemoryTimeCapsule.Delete ctx now key tc).2
  | CallExists ctx now key => (MemoryTimeCapsule.Exists ctx now key tc).2
  end.

(** The store a sequence of calls leaves, first call first. *)
Definition run (cs : list Call) (tc : gmap string (Capsule.t T)) :
    gmap string (Capsule.t T) :=
  foldl (fun tc c => apply c tc) tc cs.

End Calls.
End Client.

(** ** The shape of a one-shot wait *)

(** What it means for [wait] to be a one-shot wait over [peek] and [open]:
    it parks at most once; under a cancelled context it returns the
    context's error at once; under a live one it returns the error of
    [peek] at once, returns what [open] returns at once when [peek] reports
    the capsule unlocked, and otherwise arms one timer for the unlock time
    [peek] reported minus [now], as [time.Until] computes it, after which
    it returns what one [open]
    returns on the context, clock and store found at wake-up, or the
    context's error, which is what [open] returns under that context. *)
Definition one_shot_wait {S R : Type} `{Zero R}
    (peek : Context -> time.Time -> string -> S ->
            (Metadata.t * option error) * S)
    (open : Context -> time.Time -> string -> S -> (R * option error) * S)
    (wait : Context -> time.Time -> string -> S ->
            Blocking S (R * option error)) : Prop :=
  forall (ctx : Context) (now : time.Time) (k : string) (s : S),
    parks_at_most 1 (wait ctx now k s)
    /\ (forall e, Err ctx = Some e ->
        wait ctx now k s = Return (zero, Some e) s)
    /\ (Err ctx = None ->
        forall md s1, peek ctx now k s = (md, s1) ->
          match md.2 with
          | Some e => wait ctx now k s = Return (zero, Some e) s1
          | None =>
              if Metadata.IsLocked md.1 then
                exists kont,
                  wait ctx now k s
                  = Select (time.Until now (Metadata.UnlockTime md.1)) kont
                  /\ (forall ctx' now' s',
                      kont (TimerFired ctx' now' s')
                      = Return (open ctx' now' k s').1 (open ctx' now' k s').2)
                  /\ (forall e s',
                      kont (CtxDone e s') = Return (zero, Some e) s'
                      /\ forall now',
                         open (cancelled e) now' k s' = ((zero, Some e), s'))
              else
                wait ctx now k s
                = Return (open ctx now k s1).1 (open ctx now k s1).2
          end).

(** * Properties *)

(** ** Unfolding lemmas for the in-memory engine *)

Section MemoryFacts.
Context {T : Type} `{Zero T}.
Implicit Types (ctx : Context) (now u : time.Time) (k key : string).
Implicit Types (tc : gmap string (Capsule.t T)) (c : Capsule.t T).

(** [Store] under a live context and a valid key is an insertion. *)
Lemma Store_live ctx now k (v : T) u tc :
  Err ctx = None -> k ≠ "" ->
  MemoryTimeCapsule.Store ctx now k v u tc =
    (None, <[k := Capsule.mk v u now]> tc).
Proof.
  intros Hctx Hk. unfold MemoryTimeCapsule.Store.
  rewrite Hctx. destruct (decide (k = "")) as [E|_]; [by destruct Hk|done].
Qed.

(** [Open] under a live context and a valid key, by cases on the map. *)
Lemma Open_live ctx now k tc :
  Err ctx = None -> k ≠ "" ->
  MemoryTimeCapsule.Open ctx now k tc =
    match tc !! k with
    | None => ((zero, Some ErrCapsuleNotFound), tc)
    | Some c =>
        if now <? Capsule.UnlockTime c
        then ((zero, Some ErrCapsuleLocked), tc)
        else ((Capsule.Value c, None), tc)
    end.
Proof.
  intros Hctx Hk. unfold MemoryTimeCapsule.Open, time.Before.
  rewrite Hctx. by destruct (decide (k = "")).
Qed.

Lemma Peek_live ctx now k tc :
  Err ctx = None -> k ≠ "" ->
  MemoryTimeCapsule.Peek ctx now k tc =
    match tc !! k with
    | None => ((Metadata.empty, Some ErrCapsuleNotFound), tc)
    | Some c =>
        ((Metadata.mk (Capsule.UnlockTime c) (Capsule.CreatedAt c)
            (now <? Capsule.UnlockTime c), None), tc)
    end.
Proof.
  intros Hctx Hk. unfold MemoryTimeCapsule.Peek, time.Before.
  rewrite Hctx. by destruct (decide (k = "")).
Qed.

Lemma Delay_live ctx now k (d : time.Duration) tc :
  Err ctx = None -> k ≠ "" ->
  MemoryTimeCapsule.Delay ctx now k d tc =
    match tc !! k with
    | None => (Some ErrCapsuleNotFound, tc)
    | Some c =>
        (None,
         <[k := Capsule.mk (Capsule.Value c) (now + d) (Capsule.CreatedAt c)]> tc)
    end.
Proof.
  intros Hctx Hk. unfold MemoryTimeCapsule.Delay, time.Add.
  rewrite Hctx. by destruct (decide (k = "")).
Qed.

(** The read-only operations hand the map back as they got it. *)
Lemma Open_pure ctx now k tc : (MemoryTimeCapsule.Open ctx now k tc).2 = tc.
Proof.
  unfold MemoryTimeCapsule.Open.
  destruct (Err ctx); [done|]. destruct (decide _); [done|].
  destruct (tc !! k) as [c|]; [|done]. by destruct (time.Before _ _).
Qed.

Lemma Peek_pure ctx now k tc : (MemoryTimeCapsule.Peek ctx now k tc).2 = tc.
Proof.
  unfold MemoryTimeCapsule.Peek.
  destruct (Err ctx); [done|]. destruct (decide _); [done|].
  by destruct (tc !! k).
Qed.

Lemma Exists_pure ctx now k tc : (MemoryTimeCapsule.Exists ctx now k tc).2 = tc.
Proof.
  unfold MemoryTimeCapsule.Exists.
  destruct (Err ctx); [done|]. destruct (decide _); [done|].
  by destruct (tc !! k).
Qed.

End MemoryFacts.

(** ** Store, Open, Peek and Delay of the in-memory engine *)

(** C1. Under a live context and for a non-empty key [k]: [Store] succeeds,
    and [Open k] at any instant [now >= u] after [Store k v u] returns
    exactly [v] and no error.  [Open] on the empty key is [ErrInvalidKey];
    on a key without record, [ErrCapsuleNotFound]; on a record whose unlock
    time is after [now], [ErrCapsuleLocked]; on a record whose unlock time
    is reached, the record's value.  Whatever its arguments, [Open] returns
    the map it was given. *)
Theorem Open_after_Store {T : Type} `{Zero T}
    (ctx : Context) (k : string) (v : T) (u now0 now : time.Time)
    (tc : gmap string (Capsule.t T)) :
  Err ctx = None -> k ≠ "" ->
  (MemoryTimeCapsule.Store ctx now0 k v u tc).1 = None
  /\ (u <= now ->
      MemoryTimeCapsule.Open ctx now k
        (MemoryTimeCapsule.Store ctx now0 k v u tc).2
      = ((v, None), (MemoryTimeCapsule.Store ctx now0 k v u tc).2))
  /\ MemoryTimeCapsule.Open ctx now "" tc = ((zero, Some ErrInvalidKey), tc)
  /\ (tc !! k = None ->
      MemoryTimeCapsule.Open ctx now k tc = ((zero, Some ErrCapsuleNotFound), tc))
  /\ (forall c, tc !! k = Some c -> now < Capsule.UnlockTime c ->
      MemoryTimeCapsule.Open ctx now k tc = ((zero, Some ErrCapsuleLocked), tc))
  /\ (forall c, tc !! k = Some c -> Capsule.UnlockTime c <= now ->
      MemoryTimeCapsule.Open ctx now k tc = ((Capsule.Value c, None), tc))
  /\ (forall ctx' now' k', (MemoryTimeCapsule.Open ctx' now' k' tc).2 = tc).
Proof.
  intros Hctx Hk. rewrite Store_live by done. simpl.
  repeat split.
  - intros Hu. rewrite Open_live, lookup_insert_eq by done. simpl.
    by apply Z.ltb_ge in Hu as ->.
  - unfold MemoryTimeCapsule.Open. by rewrite Hctx.
  - intros Hnone. by rewrite Open_live, Hnone.
  - intros c Hc Hlt. rewrite Open_live, Hc by done.
    by apply Z.ltb_lt in Hlt as ->.
  - intros c Hc Hge. rewrite Open_live, Hc by done.
    by apply Z.ltb_ge in Hge as ->.
  - intros. apply Open_pure.
Qed.

(** Scenario 2 of the spec at instants 0, 100 and 150. *)
Lemma Open_after_Store_witness :
  MemoryTimeCapsule.Open Background 150 "x"
    (MemoryTimeCapsule.Store Background 0 "x" "hello" 100 ∅).2
  = (("hello", None), {[ "x" := Capsule.mk "hello" 100 0 ]}).
Proof.
  pose proof (Open_after_Store Background "x" "hello" 100 0 150 ∅
                eq_refl ltac:(discriminate)) as (_ & Hopen & _).
  rewrite Hopen by lia. reflexivity.
Defined.

(** C2. Under a live context, for a non-empty key [k] with a record:
    [Delay k d] at instant [now] succeeds and leaves under [k] a record
    whose unlock time is [now + d]; the outcome is the same whatever the
    unlock time of the record was; and a second [Delay k d2] at instant
    [now2] leaves the unlock time [now2 + d2], in which neither [d], nor
    [now], nor the old unlock time takes part. *)
Theorem Delay_resets_from_now {T : Type}
    (ctx : Context) (k : string) (c : Capsule.t T) (now : time.Time)
    (d : time.Duration) (tc : gmap string (Capsule.t T)) :
  Err ctx = None -> k ≠ "" -> tc !! k = Some c ->
  (MemoryTimeCapsule.Delay ctx now k d tc).1 = None
  /\ Capsule.UnlockTime <$> (MemoryTimeCapsule.Delay ctx now k d tc).2 !! k
     = Some (now + d)
  /\ (forall u',
      MemoryTimeCapsule.Delay ctx now k d
        (<[k := Capsule.mk (Capsule.Value c) u' (Capsule.CreatedAt c)]> tc)
      = MemoryTimeCapsule.Delay ctx now k d tc)
  /\ (forall ctx2 now2 d2, Err ctx2 = None ->
      (MemoryTimeCapsule.Delay ctx2 now2 k d2
         (MemoryTimeCapsule.Delay ctx now k d tc).2).1 = None
      /\ Capsule.UnlockTime <$>
           (MemoryTimeCapsule.Delay ctx2 now2 k d2
              (MemoryTimeCapsule.Delay ctx now k d tc).2).2 !! k
         = Some (now2 + d2)).
Proof.
  intros Hctx Hk Hc.
  rewrite !Delay_live, Hc by done. cbn [fst snd].
  split; [done|]. split; [by rewrite lookup_insert_eq|]. split.
  - intros u'. rewrite Delay_live, lookup_insert_eq by done. cbn.
    by rewrite insert_insert_eq.
  - intros ctx2 now2 d2 Hctx2.
    rewrite Delay_live, lookup_insert_eq by done. cbn.
    by rewrite lookup_insert_eq.
Qed.

(** The spec's scenario, in hours: stored at 0 to unlock at 1, delayed by 2
    at instant 0 the capsule unlocks at 2 (not at 3); delayed again by 2 at
    instant 1 it unlocks at 3 (not at 4 or 5). *)
Lemma Delay_resets_from_now_witness :
  Capsule.UnlockTime <$>
    (MemoryTimeCapsule.Delay Background 0 "x" 2
       {[ "x" := Capsule.mk "v" 1 0 ]}).2 !! "x" = Some 2
  /\ Capsule.UnlockTime <$>
       (MemoryTimeCapsule.Delay Background 1 "x" 2
          (MemoryTimeCapsule.Delay Background 0 "x" 2
             {[ "x" := Capsule.mk "v" 1 0 ]}).2).2 !! "x" = Some 3.
Proof.
  destruct (Delay_resets_from_now Background "x" (Capsule.mk "v" 1 0) 0 2
              {[ "x" := Capsule.mk "v" 1 0 ]}
              eq_refl ltac:(discriminate) eq_refl) as (_ & H1 & _ & H2).
  split; [exact H1|].
  exact (proj2 (H2 Background 1 2 eq_refl)).
Defined.

(** C4. Under live contexts and for a non-empty key [k]: after
    [Store k v1 u1] and then [Store k v2 u2], the second at instant [now2],
    the second call succeeded, the record under [k] has value [v2], unlock
    time [u2] and creation time [now2], and the map is the original one
    with that single record put under [k]: nothing of the first record,
    its creation time included, is left, and no other key is touched. *)
Theorem Store_upsert {T : Type}
    (ctx1 ctx2 : Context) (now1 now2 : time.Time) (k : string) (v1 v2 : T)
    (u1 u2 : time.Time) (tc : gmap string (Capsule.t T)) :
  Err ctx1 = None -> Err ctx2 = None -> k ≠ "" ->
  (MemoryTimeCapsule.Store ctx2 now2 k v2 u2
     (MemoryTimeCapsule.Store ctx1 now1 k v1 u1 tc).2).1 = None
  /\ (MemoryTimeCapsule.Store ctx2 now2 k v2 u2
        (MemoryTimeCapsule.Store ctx1 now1 k v1 u1 tc).2).2 !! k
     = Some (Capsule.mk v2 u2 now2)
  /\ (MemoryTimeCapsule.Store ctx2 now2 k v2 u2
        (MemoryTimeCapsule.Store ctx1 now1 k v1 u1 tc).2).2
     = <[k := Capsule.mk v2 u2 now2]> tc
  /\ (forall k', k' ≠ k ->
      (MemoryTimeCapsule.Store ctx2 now2 k v2 u2
         (MemoryTimeCapsule.Store ctx1 now1 k v1 u1 tc).2).2 !! k'
      = tc !! k').
Proof.
  intros H1 H2 Hk.
  unfold MemoryTimeCapsule.Store. rewrite H1, H2.
  case_decide; [congruence|]. cbn [fst snd].
  rewrite insert_insert_eq.
  repeat split; [apply lookup_insert_eq|].
  intros k' Hne. by apply lookup_insert_ne.
Qed.

Lemma Store_upsert_witness :
  (MemoryTimeCapsule.Store Background 7 "x" "new" 20
     (MemoryTimeCapsule.Store Background 3 "x" "old" 10 ∅).2).2
  = {[ "x" := Capsule.mk "new" 20 7 ]}.
Proof.
  destruct (Store_upsert Background Background 3 7 "x" "old" "new" 10 20 ∅
              eq_refl eq_refl ltac:(discriminate)) as (_ & _ & Hmap & _).
  exact Hmap.
Defined.

(** C6. Under a live context: for a non-empty key [k] with a record of
    unlock time [u] and creation time [c], [Peek k] at instant [now]
    returns no error and the metadata [(u, c, now < u)]; on the empty key
    it fails with [ErrInvalidKey], on a key without record with
    [ErrCapsuleNotFound]; its error is never [ErrCapsuleLocked]; and what
    it returns does not depend on the value stored under [k]. *)
Theorem Peek_metadata {T : Type}
    (ctx : Context) (now : time.Time) (k : string)
    (tc : gmap string (Capsule.t T)) :
  Err ctx = None ->
  (k ≠ "" -> forall c, tc !! k = Some c ->
     MemoryTimeCapsule.Peek ctx now k tc
     = ((Metadata.mk (Capsule.UnlockTime c) (Capsule.CreatedAt c)
           (now <? Capsule.UnlockTime c), None), tc))
  /\ MemoryTimeCapsule.Peek ctx now "" tc
     = ((Metadata.empty, Some ErrInvalidKey), tc)
  /\ (k ≠ "" -> tc !! k = None ->
      MemoryTimeCapsule.Peek ctx now k tc
      = ((Metadata.empty, Some ErrCapsuleNotFound), tc))
  /\ (MemoryTimeCapsule.Peek ctx now k tc).1.2 ≠ Some ErrCapsuleLocked
  /\ (forall c (v' : T), tc !! k = Some c ->
      (MemoryTimeCapsule.Peek ctx now k
         (<[k := Capsule.mk v' (Capsule.UnlockTime c) (Capsule.CreatedAt c)]> tc)).1
      = (MemoryTimeCapsule.Peek ctx now k tc).1).
Proof.
  intros Hctx. split; [|split; [|split; [|split]]].
  - intros Hk c Hc. by rewrite Peek_live, Hc.
  - unfold MemoryTimeCapsule.Peek. by rewrite Hctx.
  - intros Hk Hnone. by rewrite Peek_live, Hnone.
  - unfold MemoryTimeCapsule.Peek. rewrite Hctx.
    case_decide; [done|]. by destruct (tc !! k).
  - intros c v' Hc. unfold MemoryTimeCapsule.Peek. rewrite Hctx.
    case_decide; [done|]. by rewrite lookup_insert_eq, Hc.
Qed.

(** At instant 5 a capsule unlocking at 9 is locked, at instant 9 it is not. *)
Lemma Peek_metadata_witness :
  MemoryTimeCapsule.Peek Background 5 "x" {[ "x" := Capsule.mk "v" 9 2 ]}
  = ((Metadata.mk 9 2 true, None), {[ "x" := Capsule.mk "v" 9 2 ]})
  /\ MemoryTimeCapsule.Peek Background 9 "x" {[ "x" := Capsule.mk "v" 9 2 ]}
     = ((Metadata.mk 9 2 false, None), {[ "x" := Capsule.mk "v" 9 2 ]}).
Proof.
  split.
  - exact (proj1 (Peek_metadata Background 5 "x"
                    {[ "x" := Capsule.mk "v" 9 2 ]} eq_refl)
             ltac:(discriminate) (Capsule.mk "v" 9 2) eq_refl).
  - exact (proj1 (Peek_metadata Background 9 "x"
                    {[ "x" := Capsule.mk "v" 9 2 ]} eq_refl)
             ltac:(discriminate) (Capsule.mk "v" 9 2) eq_refl).
Defined.

(** ** WaitForUnlock *)

(** A call that parks at most [n] times arms at most [n] timers along any
    schedule of wake-ups. *)
Lemma parks_at_most_waits {S R : Type} (b : Blocking S R) :
  forall (n : nat) (ws : list (Wake S)),
    parks_at_most n b -> (waits ws b <= n)%nat.
Proof.
  induction b as [r s|d k IH]; intros n ws Hp; cbn [waits].
  - lia.
  - destruct n as [|n]; [destruct Hp|].
    destruct ws as [|w ws]; [lia|].
    specialize (IH w n ws (Hp w)). lia.
Qed.

(** Both engines have the same text for [WaitForUnlock]; the proof follows
    its branches, [peek] and [open] being the engine's own. *)
Ltac one_shot unfold_wait peek open :=
  let e := fresh "e" in
  let md := fresh "md" in
  let err := fresh "err" in
  intros ctx now k s; split; [|split];
  [ unfold_wait;
    destruct (Err ctx); [exact I|];
    destruct (peek ctx now k s) as [[md [e|]] ?]; [exact I|];
    destruct (Metadata.IsLocked md); cbn [negb];
    [ intros [? s'|ctx' now' s']; [exact I|];
      by destruct (open ctx' now' k s')
    | by destruct (open _ _ _ _) ]
  | intros e He; unfold_wait; by rewrite He
  | intros Hctx [md err] s1 Hpeek;
    unfold_wait; rewrite Hctx, Hpeek; cbn [fst snd];
    destruct err as [e|]; [done|];
    destruct (Metadata.IsLocked md); cbn [negb];
    [ eexists; split; [reflexivity|]; split;
      [ intros ctx' now' s'; by destruct (open ctx' now' k s')
      | intros e s'; split; [done|]; intros now'; reflexivity ]
    | by destruct (open _ _ _ _) ] ].

Lemma Memory_one_shot_wait {T : Type} `{Zero T} :
  one_shot_wait (S := gmap string (Capsule.t T))
    MemoryTimeCapsule.Peek MemoryTimeCapsule.Open
    MemoryTimeCapsule.WaitForUnlock.
Proof.
  one_shot ltac:(unfold MemoryTimeCapsule.WaitForUnlock)
           (@MemoryTimeCapsule.Peek T) (@MemoryTimeCapsule.Open T _).
Qed.

Lemma Persistent_one_shot_wait {T S : Type}
    `{Zero T} `{Storage.t S} `{Codec.t T} :
  one_shot_wait (S := S)
    PersistentTimeCapsule.Peek PersistentTimeCapsule.Open
    PersistentTimeCapsule.WaitForUnlock.
Proof.
  one_shot ltac:(unfold PersistentTimeCapsule.WaitForUnlock)
           (@PersistentTimeCapsule.Peek S _)
           (@PersistentTimeCapsule.Open T S _ _ _).
Qed.

(** The timer of a wait: the time left when it is a [Duration], the
    largest [Duration] when the unlock time is further away than that. *)
Lemma Until_in_range (now u : time.Time) :
  time.minDuration <= u - now <= time.maxDuration ->
  time.Until now u = u - now.
Proof.
  intros [Hlo Hhi]. unfold time.Until, time.Sub. cbv zeta.
  apply Z.leb_le in Hlo, Hhi. by rewrite Hlo, Hhi.
Qed.

Lemma Until_capped (now u : time.Time) :
  time.maxDuration < u - now -> time.Until now u = time.maxDuration.
Proof.
  intros Hfar. unfold time.Until, time.Sub, time.Before. cbv zeta.
  assert ((u - now <=? time.maxDuration) = false) as ->
    by (apply Z.leb_gt; lia).
  rewrite andb_false_r.
  assert ((u <? now) = false) as ->; [|done].
  apply Z.ltb_ge. unfold time.maxDuration in Hfar. lia.
Qed.

Lemma Until_locked (now u : time.Time) :
  now < u -> time.Until now u = Z.min time.maxDuration (u - now).
Proof.
  intros Hlt. destruct (Z_le_gt_dec (u - now) time.maxDuration) as [Hle|Hgt].
  - rewrite Until_in_range, Z.min_r; [done|done|].
    unfold time.minDuration. lia.
  - rewrite Until_capped, Z.min_l by lia. done.
Qed.

(** The in-memory wait on a locked capsule, spelled out: one timer, then
    one [Open] on the map found at wake-up. *)
Lemma Memory_wait_locked {T : Type} `{Zero T}
    (ctx : Context) (now : time.Time) (k : string) (c : Capsule.t T)
    (tc : gmap string (Capsule.t T)) :
  Err ctx = None -> k ≠ "" -> tc !! k = Some c -> now < Capsule.UnlockTime c ->
  exists kont,
    MemoryTimeCapsule.WaitForUnlock ctx now k tc
    = Select (Z.min time.maxDuration (Capsule.UnlockTime c - now)) kont
    /\ (forall ctx' now' tc', Err ctx' = None -> tc' !! k = None ->
        kont (TimerFired ctx' now' tc')
        = Return (zero, Some ErrCapsuleNotFound) tc')
    /\ (forall ctx' now' tc' c', Err ctx' = None -> tc' !! k = Some c' ->
        now' < Capsule.UnlockTime c' ->
        kont (TimerFired ctx' now' tc')
        = Return (zero, Some ErrCapsuleLocked) tc')
    /\ (forall ctx' now' tc' c', Err ctx' = None -> tc' !! k = Some c' ->
        Capsule.UnlockTime c' <= now' ->
        kont (TimerFired ctx' now' tc') = Return (Capsule.Value c', None) tc').
Proof.
  intros Hctx Hk Hc Hlt.
  unfold MemoryTimeCapsule.WaitForUnlock.
  rewrite Hctx, Peek_live, Hc by done. cbn [Metadata.IsLocked Metadata.UnlockTime].
  rewrite Until_locked by done.
  apply Z.ltb_lt in Hlt as ->. cbn [negb].
  eexists. split; [reflexivity|].
  split; [|split].
  - intros ctx' now' tc' Hctx' Hnone. by rewrite Open_live, Hnone.
  - intros ctx' now' tc' c' Hctx' Hc' Hlt'. rewrite Open_live, Hc' by done.
    by apply Z.ltb_lt in Hlt' as ->.
  - intros ctx' now' tc' c' Hctx' Hc' Hge. rewrite Open_live, Hc' by done.
    by apply Z.ltb_ge in Hge as ->.
Qed.

(** C3. [WaitForUnlock] of either engine is a one-shot wait over the
    engine's [Peek] and [Open]: it parks at most once, arming at most one
    timer along any schedule of wake-ups; a cancelled context
    gives the context's error at once; a failing [Peek] gives its error at
    once (for the in-memory engine under a live context that error is
    [ErrInvalidKey] or [ErrCapsuleNotFound]); an unlocked capsule gives the
    result of [Open] at once; a locked one arms a single timer for the
    unlock time seen by [Peek] minus [now], capped at the largest
    [Duration] (the timer is exactly that difference whenever the
    difference is a [Duration]), and the wake-up returns the result of one
    [Open] without parking again: [ErrCapsuleNotFound] when the record was
    deleted meanwhile, [ErrCapsuleLocked] when it was delayed past the
    wake-up instant or when the timer fired before the unlock time. *)
Theorem WaitForUnlock_waits_once {T S : Type}
    `{Zero T} `{Storage.t S} `{Codec.t T} :
  one_shot_wait (S := gmap string (Capsule.t T))
    MemoryTimeCapsule.Peek MemoryTimeCapsule.Open
    MemoryTimeCapsule.WaitForUnlock
  /\ one_shot_wait (S := S)
       PersistentTimeCapsule.Peek PersistentTimeCapsule.Open
       PersistentTimeCapsule.WaitForUnlock
  /\ (forall ws ctx now k (tc : gmap string (Capsule.t T)),
      (waits ws (MemoryTimeCapsule.WaitForUnlock ctx now k tc) <= 1)%nat)
  /\ (forall ws ctx now k (s : S),
      (waits ws (PersistentTimeCapsule.WaitForUnlock (T := T) ctx now k s)
       <= 1)%nat)
  /\ (forall ctx now k (tc tc1 : gmap string (Capsule.t T)) md e,
      Err ctx = None ->
      MemoryTimeCapsule.Peek ctx now k tc = ((md, Some e), tc1) ->
      e = ErrInvalidKey \/ e = ErrCapsuleNotFound)
  /\ (forall ctx now k (c : Capsule.t T) (tc : gmap string (Capsule.t T)),
      Err ctx = None -> k ≠ "" -> tc !! k = Some c ->
      now < Capsule.UnlockTime c ->
      exists kont,
        MemoryTimeCapsule.WaitForUnlock ctx now k tc
        = Select (Z.min time.maxDuration (Capsule.UnlockTime c - now)) kont
        /\ (forall w, parks_at_most 0 (kont w))
        /\ (forall now' tc', tc' !! k = None ->
            kont (TimerFired Background now' tc')
            = Return (zero, Some ErrCapsuleNotFound) tc')
        /\ (forall now' d,
            0 < d ->
            kont (TimerFired Background now'
                    (MemoryTimeCapsule.Delay Background now' k d tc).2)
            = Return (zero, Some ErrCapsuleLocked)
                (MemoryTimeCapsule.Delay Background now' k d tc).2)
        /\ (forall now', now' < Capsule.UnlockTime c ->
            kont (TimerFired Background now' tc)
            = Return (zero, Some ErrCapsuleLocked) tc))
  /\ (forall now u : time.Time,
      time.minDuration <= u - now <= time.maxDuration ->
      time.Until now u = u - now)
  /\ (forall now u : time.Time,
      time.maxDuration < u - now -> time.Until now u = time.maxDuration).
Proof.
  split; [apply Memory_one_shot_wait|].
  split; [apply Persistent_one_shot_wait|].
  split; [|split; [|split; [|split; [|split]]]];
    [| | | |apply Until_in_range|apply Until_capped].
  - intros ws ctx now k tc. apply parks_at_most_waits.
    apply (Memory_one_shot_wait ctx now k tc).
  - intros ws ctx now k s. apply parks_at_most_waits.
    apply (Persistent_one_shot_wait ctx now k s).
  - intros ctx now k tc tc1 md e Hctx.
    unfold MemoryTimeCapsule.Peek. rewrite Hctx.
    case_decide; [intros [= <- <- <-]; by left|].
    destruct (tc !! k); intros [= <- <- <-] || intros [=]. by right.
  - intros ctx now k c tc Hctx Hk Hc Hlt.
    destruct (Memory_wait_locked ctx now k c tc Hctx Hk Hc Hlt)
      as (kont & Heq & Hgone & Hlocked & _).
    exists kont. split; [done|]. split; [|split; [|split]].
    + intros w.
      destruct (Memory_one_shot_wait ctx now k tc) as (Hpark & _).
      rewrite Heq in Hpark. apply Hpark.
    + intros now' tc' Hnone. by apply Hgone.
    + intros now' d Hd. rewrite Delay_live, Hc by done. cbn [snd].
      eapply Hlocked; [done|apply lookup_insert_eq|]. cbn. lia.
    + intros now' Hearly. by eapply Hlocked.
Qed.

(** A capsule stored to unlock at 100 and awaited from instant 10: one timer
    of 90; if the record is gone when the timer fires, the wait ends with
    [ErrCapsuleNotFound]. *)
Lemma WaitForUnlock_waits_once_witness :
  exists kont,
    MemoryTimeCapsule.WaitForUnlock Background 10 "x"
      {[ "x" := Capsule.mk hi 100 0 ]}
    = Select 90 kont
    /\ kont (TimerFired Background 100 ∅)
       = Return ([], Some ErrCapsuleNotFound) ∅.
Proof.
  destruct (WaitForUnlock_waits_once (T := list Byte.byte) (S := backend))
    as (_ & _ & _ & _ & _ & Hlocked & _).
  destruct (Hlocked Background 10 "x" (Capsule.mk hi 100 0)
              {[ "x" := Capsule.mk hi 100 0 ]}
              eq_refl ltac:(discriminate) eq_refl ltac:(reflexivity))
    as (kont & Heq & _ & Hgone & _).
  exists kont. split; [exact Heq|].
  exact (Hgone 100 ∅ eq_refl).
Defined.

(** A capsule to unlock 1000 ns further away than the largest [Duration]:
    the timer armed is the largest [Duration], not the time left, and when
    it fires the capsule is still locked. *)
Lemma WaitForUnlock_timer_is_capped :
  ~ (exists kont,
       MemoryTimeCapsule.WaitForUnlock Background 0 "x"
         {[ "x" := Capsule.mk hi 9223372036854776807 0 ]}
       = Select (9223372036854776807 - 0) kont)
  /\ (exists kont,
       MemoryTimeCapsule.WaitForUnlock Background 0 "x"
         {[ "x" := Capsule.mk hi 9223372036854776807 0 ]}
       = Select 9223372036854775807 kont
       /\ kont (TimerFired Background (0 + 9223372036854775807)
                  {[ "x" := Capsule.mk hi 9223372036854776807 0 ]})
          = Return ([], Some ErrCapsuleLocked)
              {[ "x" := Capsule.mk hi 9223372036854776807 0 ]}).
Proof.
  split.
  - intros [kont Heq]. vm_compute in Heq. discriminate Heq.
  - eexists. split; reflexivity.
Qed.

(** ** Cancelled contexts *)

(** C8. Under a context that is already cancelled, with error [e], every
    operation of either engine returns [e] ([Exists] returns [false]) and
    hands back the store, respectively the backend, exactly as it was;
    [WaitForUnlock] does so without parking. *)
Theorem cancelled_context_is_noop {T S : Type}
    `{Zero T} `{Storage.t S} `{Codec.t T}
    (ctx : Context) (e : error) (now : time.Time) (k : string) (v : T)
    (u : time.Time) (d : time.Duration)
    (tc : gmap string (Capsule.t T)) (s : S) :
  Err ctx = Some e ->
  (MemoryTimeCapsule.Store ctx now k v u tc = (Some e, tc)
   /\ MemoryTimeCapsule.Open ctx now k tc = ((zero, Some e), tc)
   /\ MemoryTimeCapsule.Peek ctx now k tc = ((Metadata.empty, Some e), tc)
   /\ MemoryTimeCapsule.Delay ctx now k d tc = (Some e, tc)
   /\ MemoryTimeCapsule.Delete ctx now k tc = (Some e, tc)
   /\ MemoryTimeCapsule.Exists ctx now k tc = (false, tc)
   /\ MemoryTimeCapsule.WaitForUnlock ctx now k tc = Return (zero, Some e) tc)
  /\ (PersistentTimeCapsule.Store ctx now k v u s = (Some e, s)
      /\ PersistentTimeCapsule.Open (T := T) ctx now k s = ((zero, Some e), s)
      /\ PersistentTimeCapsule.Peek ctx now k s = ((Metadata.empty, Some e), s)
      /\ PersistentTimeCapsule.Delay ctx now k d s = (Some e, s)
      /\ PersistentTimeCapsule.Delete ctx now k s = (Some e, s)
      /\ PersistentTimeCapsule.Exists ctx now k s = (false, s)
      /\ PersistentTimeCapsule.WaitForUnlock (T := T) ctx now k s
         = Return (zero, Some e) s).
Proof.
  intros He. split.
  - unfold MemoryTimeCapsule.Store, MemoryTimeCapsule.Open,
      MemoryTimeCapsule.Peek, MemoryTimeCapsule.Delay,
      MemoryTimeCapsule.Delete, MemoryTimeCapsule.Exists,
      MemoryTimeCapsule.WaitForUnlock.
    rewrite He. tauto.
  - unfold PersistentTimeCapsule.Store, PersistentTimeCapsule.Open,
      PersistentTimeCapsule.Peek, PersistentTimeCapsule.Delay,
      PersistentTimeCapsule.Delete, PersistentTimeCapsule.Exists,
      PersistentTimeCapsule.WaitForUnlock.
    rewrite He. tauto.
Qed.

(** The calls of the package's cancellation test, on a store with one
    locked capsule. *)
Lemma cancelled_context_is_noop_witness :
  MemoryTimeCapsule.Delete (cancelled Canceled) 1 "test"
    {[ "test" := Capsule.mk hi 3600 0 ]}
  = (Some Canceled, {[ "test" := Capsule.mk hi 3600 0 ]})
  /\ PersistentTimeCapsule.Store (cancelled Canceled) 1 "test" hi 7200
       ({[ "test" := Capsule.mk hi 3600 0 ]} : backend)
     = (Some Canceled, {[ "test" := Capsule.mk hi 3600 0 ]}).
Proof.
  destruct (cancelled_context_is_noop (S := backend)
              (cancelled Canceled) Canceled 1 "test" hi 7200 0
              {[ "test" := Capsule.mk hi 3600 0 ]}
              {[ "test" := Capsule.mk hi 3600 0 ]} eq_refl)
    as ((_ & _ & _ & _ & Hdel & _) & (Hstore & _)).
  split; [exact Hdel|exact Hstore].
Defined.

(** C10. With the empty key under a context that is already cancelled, with
    error [e], every operation of either engine returns [e] ([Exists]
    returns [false]) and not [ErrInvalidKey]: the context is looked at
    before the key. *)
Theorem cancellation_before_key_check {T S : Type}
    `{Zero T} `{Storage.t S} `{Codec.t T}
    (ctx : Context) (e : error) (now : time.Time) (v : T)
    (u : time.Time) (d : time.Duration)
    (tc : gmap string (Capsule.t T)) (s : S) :
  Err ctx = Some e ->
  ((MemoryTimeCapsule.Store ctx now "" v u tc).1 = Some e
   /\ (MemoryTimeCapsule.Open ctx now "" tc).1 = (zero, Some e)
   /\ (MemoryTimeCapsule.Peek ctx now "" tc).1.2 = Some e
   /\ (MemoryTimeCapsule.Delay ctx now "" d tc).1 = Some e
   /\ (MemoryTimeCapsule.Delete ctx now "" tc).1 = Some e
   /\ (MemoryTimeCapsule.Exists ctx now "" tc).1 = false
   /\ MemoryTimeCapsule.WaitForUnlock ctx now "" tc = Return (zero, Some e) tc)
  /\ ((PersistentTimeCapsule.Store ctx now "" v u s).1 = Some e
      /\ (PersistentTimeCapsule.Open (T := T) ctx now "" s).1 = (zero, Some e)
      /\ (PersistentTimeCapsule.Peek ctx now "" s).1.2 = Some e
      /\ (PersistentTimeCapsule.Delay ctx now "" d s).1 = Some e
      /\ (PersistentTimeCapsule.Delete ctx now "" s).1 = Some e
      /\ (PersistentTimeCapsule.Exists ctx now "" s).1 = false
      /\ PersistentTimeCapsule.WaitForUnlock (T := T) ctx now "" s
         = Return (zero, Some e) s).
Proof.
  intros He. destruct ctx as [[e'|]]; simplify_eq/=.
  split; repeat split.
Qed.

(** Under a deadline that has passed, storing under the empty key reports
    the deadline and not the key. *)
Lemma cancellation_before_key_check_witness :
  (MemoryTimeCapsule.Store (cancelled DeadlineExceeded) 4 "" hi 9 ∅).1
  = Some DeadlineExceeded
  /\ (PersistentTimeCapsule.Store (cancelled DeadlineExceeded) 4 "" hi 9
        (∅ : backend)).1
     = Some DeadlineExceeded.
Proof.
  destruct (cancellation_before_key_check (S := backend)
              (cancelled DeadlineExceeded) DeadlineExceeded 4 hi 9 0 ∅ ∅
              eq_refl)
    as ((Hm & _) & (Hp & _)).
  split; [exact Hm|exact Hp].
Defined.

(** ** Exists *)

(** C9. [Exists] returns a boolean and no error.  For the in-memory engine
    it is [true] exactly when the context is live, the key is non-empty and
    the map has a record under the key; the clock, and so the lock state of
    the record, plays no part, and the map is handed back unchanged.  The
    backend-delegating engine answers [false] without consulting the
    backend under a cancelled context or for the empty key, and otherwise
    gives the backend's answer; over the in-memory backend that is again
    [true] exactly when a record is present. *)
Theorem Exists_reports_presence {T S : Type} `{Storage.t S}
    (ctx : Context) (now : time.Time) (k : string)
    (tc : gmap string (Capsule.t T)) (s : S) (b : backend) :
  ((MemoryTimeCapsule.Exists ctx now k tc).1 = true
   <-> Err ctx = None /\ k ≠ "" /\ is_Some (tc !! k))
  /\ (MemoryTimeCapsule.Exists ctx now k tc).2 = tc
  /\ (forall now', MemoryTimeCapsule.Exists ctx now' k tc
                   = MemoryTimeCapsule.Exists ctx now k tc)
  /\ (Err ctx ≠ None \/ k = "" ->
      PersistentTimeCapsule.Exists ctx now k s = (false, s))
  /\ (Err ctx = None -> k ≠ "" ->
      PersistentTimeCapsule.Exists ctx now k s = Storage.Exists ctx now k s)
  /\ ((PersistentTimeCapsule.Exists ctx now k b).1 = true
      <-> Err ctx = None /\ k ≠ "" /\ is_Some (b !! k)).
Proof.
  assert (Hmem : forall (U : Type) (m : gmap string (Capsule.t U)),
             (MemoryTimeCapsule.Exists ctx now k m).1 = true
             <-> Err ctx = None /\ k ≠ "" /\ is_Some (m !! k)).
  { intros U m. unfold MemoryTimeCapsule.Exists.
    destruct (Err ctx) as [e|].
    { split; [discriminate|]. by intros [? _]. }
    case_decide as Hk.
    { split; [discriminate|]. by intros (_ & ? & _). }
    destruct (m !! k) as [c|]; cbn.
    - split; [|done]. intros _. split; [done|]. split; [done|]. by exists c.
    - split; [discriminate|]. intros (_ & _ & [c Hc]). discriminate. }
  split; [apply Hmem|].
  split; [apply Exists_pure|].
  split; [done|].
  split; [|split].
  - unfold PersistentTimeCapsule.Exists.
    intros [Hctx| ->]; destruct (Err ctx); done.
  - intros Hctx Hk. unfold PersistentTimeCapsule.Exists.
    rewrite Hctx. by case_decide.
  - rewrite <- (Hmem _ b). unfold PersistentTimeCapsule.Exists.
    cbn [Storage.Exists MemoryStorage].
    unfold MemoryTimeCapsule.Exists.
    destruct (Err ctx); [done|]. by case_decide.
Qed.

(** A locked capsule exists; asked under a cancelled context it does not. *)
Lemma Exists_reports_presence_witness :
  (MemoryTimeCapsule.Exists Background 0 "x"
     {[ "x" := Capsule.mk hi 100 0 ]}).1 = true
  /\ PersistentTimeCapsule.Exists (cancelled Canceled) 0 "x"
       ({[ "x" := Capsule.mk hi 100 0 ]} : backend)
     = (false, {[ "x" := Capsule.mk hi 100 0 ]}).
Proof.
  destruct (Exists_reports_presence (S := backend) Background 0 "x"
              {[ "x" := Capsule.mk hi 100 0 ]} ∅ ∅) as (Hm & _).
  destruct (Exists_reports_presence (T := list Byte.byte) (S := backend)
              (cancelled Canceled) 0 "x" ∅
              {[ "x" := Capsule.mk hi 100 0 ]} ∅) as (_ & _ & _ & Hp & _).
  split.
  - apply Hm. split; [reflexivity|]. split; [discriminate|].
    exists (Capsule.mk hi 100 0). reflexivity.
  - apply Hp. left. discriminate.
Defined.

(** ** Delay: what it keeps and how it fails *)

(** The in-memory [Delay] changes the unlock time of the record under [k]
    and nothing else. *)
Lemma Memory_Delay_frame {T : Type}
    (ctx : Context) (now : time.Time) (k : string) (d : time.Duration)
    (tc tc' : gmap string (Capsule.t T)) :
  MemoryTimeCapsule.Delay ctx now k d tc = (None, tc') ->
  exists c,
    tc !! k = Some c
    /\ tc' !! k
       = Some (Capsule.mk (Capsule.Value c) (now + d) (Capsule.CreatedAt c))
    /\ (forall k', k' ≠ k -> tc' !! k' = tc !! k')
    /\ dom tc' = dom tc.
Proof.
  unfold MemoryTimeCapsule.Delay, time.Add.
  destruct (Err ctx); [discriminate|].
  case_decide; [discriminate|].
  destruct (tc !! k) as [c|] eqn:Hc; [|discriminate].
  intros [= <-]. exists c.
  split; [done|]. split; [apply lookup_insert_eq|]. split.
  - intros k' Hne. by apply lookup_insert_ne.
  - apply set_eq. intros k'. rewrite !elem_of_dom.
    destruct (decide (k' = k)) as [->|Hne].
    + rewrite lookup_insert_eq, Hc. split; eauto.
    + by rewrite lookup_insert_ne.
Qed.

(** Under a live context the in-memory [Delay] fails with [ErrInvalidKey]
    exactly on the empty key, with [ErrCapsuleNotFound] exactly on a
    non-empty key without record, and in no other way. *)
Lemma Memory_Delay_errors {T : Type}
    (ctx : Context) (now : time.Time) (k : string) (d : time.Duration)
    (tc : gmap string (Capsule.t T)) :
  Err ctx = None ->
  (MemoryTimeCapsule.Delay ctx now k d tc).1 =
    if decide (k = "") then Some ErrInvalidKey
    else match tc !! k with
         | None => Some ErrCapsuleNotFound
         | Some _ => None
         end.
Proof.
  intros Hctx. unfold MemoryTimeCapsule.Delay. rewrite Hctx.
  case_decide; [done|]. by destruct (tc !! k).
Qed.

(** Over any backend, [Delay] of the backend-delegating engine returns the
    error of the backend's [Open] when the backend's [Peek] found the
    record. *)
Lemma Persistent_Delay_open_error {S : Type} `{Storage.t S}
    (ctx : Context) (now : time.Time) (k : string) (d : time.Duration)
    (s s1 s2 : S) (md : Metadata.t) (data : list Byte.byte) (e : error) :
  Err ctx = None -> k ≠ "" ->
  Storage.Peek ctx now k s = ((md, None), s1) ->
  Storage.Open ctx now k s1 = ((data, Some e), s2) ->
  PersistentTimeCapsule.Delay ctx now k d s = (Some e, s2).
Proof.
  intros Hctx Hk Hpeek Hopen. unfold PersistentTimeCapsule.Delay.
  rewrite Hctx. case_decide; [done|]. by rewrite Hpeek, Hopen.
Qed.

(** Over the in-memory backend, [Delay] of the backend-delegating engine on
    an existing record: refused while the record is locked; otherwise the
    record is stored anew, created at [now]. *)
Lemma Persistent_Delay_on_MemoryStorage
    (ctx : Context) (now : time.Time) (k : string) (d : time.Duration)
    (s : backend) (c : Capsule.t (list Byte.byte)) :
  Err ctx = None -> k ≠ "" -> s !! k = Some c ->
  PersistentTimeCapsule.Delay ctx now k d s =
    if now <? Capsule.UnlockTime c
    then (Some ErrCapsuleLocked, s)
    else (None, <[k := Capsule.mk (Capsule.Value c) (now + d) now]> s).
Proof.
  intros Hctx Hk Hc. unfold PersistentTimeCapsule.Delay.
  rewrite Hctx. case_decide; [done|].
  cbn [Storage.Peek Storage.Open Storage.Store MemoryStorage].
  rewrite Peek_live, Hc by done. cbn beta iota.
  rewrite Open_live, Hc by done.
  destruct (now <? Capsule.UnlockTime c); [done|].
  by rewrite Store_live.
Qed.

(** C5. A successful [Delay] is to change the unlock time only, in both
    engines.  The in-memory engine does so; the backend-delegating engine,
    run over the in-memory backend on a capsule created at 0 and unlocked
    since 5, delays it at instant 10 by storing it again, and the record
    comes back created at 10. *)
Theorem Persistent_Delay_resets_CreatedAt :
  PersistentTimeCapsule.Delay Background 10 "k" 50
    ({[ "k" := Capsule.mk hi 5 0 ]} : backend)
  = (None, {[ "k" := Capsule.mk hi 60 10 ]})
  /\ MemoryTimeCapsule.Delay Background 10 "k" 50
       ({[ "k" := Capsule.mk hi 5 0 ]} : backend)
     = (None, {[ "k" := Capsule.mk hi 60 0 ]}).
Proof. split; reflexivity. Qed.

(** C7. [Delay] is to fail with [ErrInvalidKey] or [ErrCapsuleNotFound]
    only, in both engines.  The in-memory engine delays a locked capsule;
    the backend-delegating engine, run over the in-memory backend, whose
    [Open] refuses a locked capsule, fails on the same capsule with
    [ErrCapsuleLocked] and leaves its unlock time as it was. *)
Theorem Persistent_Delay_fails_when_locked :
  PersistentTimeCapsule.Delay Background 10 "k" 50
    ({[ "k" := Capsule.mk hi 100 0 ]} : backend)
  = (Some ErrCapsuleLocked, {[ "k" := Capsule.mk hi 100 0 ]})
  /\ MemoryTimeCapsule.Delay Background 10 "k" 50
       ({[ "k" := Capsule.mk hi 100 0 ]} : backend)
     = (None, {[ "k" := Capsule.mk hi 60 0 ]}).
Proof. split; reflexivity. Qed.

(** * Further properties of the in-memory engine *)

Section MemoryMore.
Context {T : Type} `{Zero T}.
Implicit Types (ctx : Context) (now u : time.Time) (k key : string).
Implicit Types (tc : gmap string (Capsule.t T)) (c : Capsule.t T).

Lemma Delete_live ctx now k tc :
  Err ctx = None -> k ≠ "" ->
  MemoryTimeCapsule.Delete ctx now k tc =
    match tc !! k with
    | None => (Some ErrCapsuleNotFound, tc)
    | Some _ => (None, delete k tc)
    end.
Proof.
  intros Hctx Hk. unfold MemoryTimeCapsule.Delete.
  rewrite Hctx. by destruct (decide (k = "")).
Qed.

Lemma Exists_live ctx now k tc :
  Err ctx = None -> k ≠ "" ->
  MemoryTimeCapsule.Exists ctx now k tc =
    match tc !! k with
    | None => (false, tc)
    | Some _ => (true, tc)
    end.
Proof.
  intros Hctx Hk. unfold MemoryTimeCapsule.Exists.
  rewrite Hctx. by destruct (decide (k = "")).
Qed.

(** The three mutating operations leave the records of other keys alone,
    whatever the context and whether they succeed or not. *)
Lemma Store_lookup_ne ctx now k (v : T) u tc k' :
  k' ≠ k -> (MemoryTimeCapsule.Store ctx now k v u tc).2 !! k' = tc !! k'.
Proof.
  intros Hne. unfold MemoryTimeCapsule.Store.
  destruct (Err ctx); [done|]. case_decide; [done|].
  by apply lookup_insert_ne.
Qed.

Lemma Delay_lookup_ne ctx now k (d : time.Duration) tc k' :
  k' ≠ k -> (MemoryTimeCapsule.Delay ctx now k d tc).2 !! k' = tc !! k'.
Proof.
  intros Hne. unfold MemoryTimeCapsule.Delay.
  destruct (Err ctx); [done|]. case_decide; [done|].
  destruct (tc !! k); [|done]. by apply lookup_insert_ne.
Qed.

Lemma Delete_lookup_ne ctx now k tc k' :
  k' ≠ k -> (MemoryTimeCapsule.Delete ctx now k tc).2 !! k' = tc !! k'.
Proof.
  intros Hne. unfold MemoryTimeCapsule.Delete.
  destruct (Err ctx); [done|]. case_decide; [done|].
  destruct (tc !! k); [|done]. by apply lookup_delete_ne.
Qed.

(** What the reading operations return for a key is decided by the record
    under that key. *)
Lemma Open_lookup ctx now k tc tc' :
  tc !! k = tc' !! k ->
  (MemoryTimeCapsule.Open ctx now k tc).1 = (MemoryTimeCapsule.Open ctx now k tc').1.
Proof.
  intros Heq. unfold MemoryTimeCapsule.Open.
  destruct (Err ctx); [done|]. case_decide; [done|].
  rewrite Heq. destruct (tc' !! k) as [c|]; [|done].
  by destruct (time.Before _ _).
Qed.

Lemma Peek_lookup ctx now k tc tc' :
  tc !! k = tc' !! k ->
  (MemoryTimeCapsule.Peek ctx now k tc).1 = (MemoryTimeCapsule.Peek ctx now k tc').1.
Proof.
  intros Heq. unfold MemoryTimeCapsule.Peek.
  destruct (Err ctx); [done|]. case_decide; [done|].
  rewrite Heq. by destruct (tc' !! k).
Qed.

Lemma Exists_lookup ctx now k tc tc' :
  tc !! k = tc' !! k ->
  (MemoryTimeCapsule.Exists ctx now k tc).1
  = (MemoryTimeCapsule.Exists ctx now k tc').1.
Proof.
  intros Heq. unfold MemoryTimeCapsule.Exists.
  destruct (Err ctx); [done|]. case_decide; [done|].
  rewrite Heq. by destruct (tc' !! k).
Qed.

End MemoryMore.

(** ** Delete *)

(** X1. Under a live context, [Delete] of a non-empty key that has a record,
    locked or not, succeeds and removes exactly that record: every other
    key keeps its record, [Exists] of the key is [false] afterwards under
    any context, [Open] and [Peek] report [ErrCapsuleNotFound], and a
    second [Delete] fails with [ErrCapsuleNotFound] and changes nothing. *)
Theorem Delete_removes_the_record {T : Type} `{Zero T}
    (ctx : Context) (now : time.Time) (k : string) (c : Capsule.t T)
    (tc : gmap string (Capsule.t T)) :
  Err ctx = None -> k ≠ "" -> tc !! k = Some c ->
  MemoryTimeCapsule.Delete ctx now k tc = (None, delete k tc)
  /\ (forall k', k' ≠ k ->
      (MemoryTimeCapsule.Delete ctx now k tc).2 !! k' = tc !! k')
  /\ (forall ctx' now',
      (MemoryTimeCapsule.Exists ctx' now' k
         (MemoryTimeCapsule.Delete ctx now k tc).2).1 = false)
  /\ (forall ctx' now', Err ctx' = None ->
      (MemoryTimeCapsule.Open ctx' now' k
         (MemoryTimeCapsule.Delete ctx now k tc).2).1
      = (zero, Some ErrCapsuleNotFound)
      /\ (MemoryTimeCapsule.Peek ctx' now' k
            (MemoryTimeCapsule.Delete ctx now k tc).2).1
         = (Metadata.empty, Some ErrCapsuleNotFound)
      /\ MemoryTimeCapsule.Delete ctx' now' k
           (MemoryTimeCapsule.Delete ctx now k tc).2
         = (Some ErrCapsuleNotFound, delete k tc)).
Proof.
  intros Hctx Hk Hc. rewrite Delete_live, Hc by done. cbn [snd].
  split; [done|]. split; [|split].
  - intros k' Hne. by apply lookup_delete_ne.
  - intros ctx' now'. unfold MemoryTimeCapsule.Exists.
    destruct (Err ctx'); [done|]. case_decide; [done|].
    by rewrite lookup_delete_eq.
  - intros ctx' now' Hctx'.
    by rewrite Open_live, Peek_live, Delete_live, lookup_delete_eq.
Qed.

(** The package's deletion test: a capsule locked for an hour is deleted. *)
Lemma Delete_removes_the_record_witness :
  MemoryTimeCapsule.Delete Background 1 "test"
    {[ "test" := Capsule.mk "hello" 3600 0 ]}
  = (None, ∅)
  /\ (MemoryTimeCapsule.Exists Background 2 "test"
        (MemoryTimeCapsule.Delete Background 1 "test"
           {[ "test" := Capsule.mk "hello" 3600 0 ]}).2).1 = false.
Proof.
  destruct (Delete_removes_the_record Background 1 "test"
              (Capsule.mk "hello" 3600 0)
              {[ "test" := Capsule.mk "hello" 3600 0 ]}
              eq_refl ltac:(discriminate) eq_refl) as (Hdel & _ & Hex & _).
  split; [rewrite Hdel; reflexivity|apply Hex].
Defined.

(** X2. A mutating operation that returns an error has not changed the
    store, whatever the context; and under a live context [Store] fails
    exactly on the empty key, with [ErrInvalidKey], while [Delete] fails
    with [ErrInvalidKey] exactly on the empty key and with
    [ErrCapsuleNotFound] exactly on a non-empty key without record. *)
Theorem failed_mutation_changes_nothing {T : Type}
    (ctx : Context) (now : time.Time) (k : string) (v : T) (u : time.Time)
    (d : time.Duration) (tc : gmap string (Capsule.t T)) :
  ((MemoryTimeCapsule.Store ctx now k v u tc).1 ≠ None ->
   (MemoryTimeCapsule.Store ctx now k v u tc).2 = tc)
  /\ ((MemoryTimeCapsule.Delay ctx now k d tc).1 ≠ None ->
      (MemoryTimeCapsule.Delay ctx now k d tc).2 = tc)
  /\ ((MemoryTimeCapsule.Delete ctx now k tc).1 ≠ None ->
      (MemoryTimeCapsule.Delete ctx now k tc).2 = tc)
  /\ (Err ctx = None ->
      (MemoryTimeCapsule.Store ctx now k v u tc).1
      = (if decide (k = "") then Some ErrInvalidKey else None)
      /\ (MemoryTimeCapsule.Delete ctx now k tc).1
         = (if decide (k = "") then Some ErrInvalidKey
            else match tc !! k with
                 | None => Some ErrCapsuleNotFound
                 | Some _ => None
                 end)).
Proof.
  unfold MemoryTimeCapsule.Store, MemoryTimeCapsule.Delay,
    MemoryTimeCapsule.Delete.
  destruct (Err ctx) as [e|].
  { repeat split; done. }
  case_decide.
  { repeat split; done. }
  destruct (tc !! k); repeat split; done.
Qed.

(** Deleting a key that was never stored fails and leaves the one capsule
    of the store in place. *)
Lemma failed_mutation_changes_nothing_witness :
  (MemoryTimeCapsule.Delete Background 1 "missing"
     {[ "x" := Capsule.mk "v" 9 0 ]}).2
  = {[ "x" := Capsule.mk "v" 9 0 ]}.
Proof.
  destruct (failed_mutation_changes_nothing Background 1 "missing" "" 0 0
              {[ "x" := Capsule.mk "v" 9 0 ]}) as (_ & _ & Hdel & _).
  apply Hdel. discriminate.
Defined.

(** X3. Under live contexts and for a non-empty key: [Store] followed by
    [Delete] of the same key succeeds and leaves the store without a
    record under the key; if the key had no record before, the store is
    back to what it was. *)
Theorem Store_then_Delete {T : Type}
    (ctx1 ctx2 : Context) (now1 now2 : time.Time) (k : string) (v : T)
    (u : time.Time) (tc : gmap string (Capsule.t T)) :
  Err ctx1 = None -> Err ctx2 = None -> k ≠ "" ->
  MemoryTimeCapsule.Delete ctx2 now2 k
    (MemoryTimeCapsule.Store ctx1 now1 k v u tc).2
  = (None, delete k tc)
  /\ (tc !! k = None ->
      MemoryTimeCapsule.Delete ctx2 now2 k
        (MemoryTimeCapsule.Store ctx1 now1 k v u tc).2
      = (None, tc)).
Proof.
  intros H1 H2 Hk.
  rewrite Store_live by done. cbn [snd].
  rewrite Delete_live, lookup_insert_eq, delete_insert_eq by done.
  split; [done|]. intros Hnone. by rewrite delete_id.
Qed.

Lemma Store_then_Delete_witness :
  MemoryTimeCapsule.Delete Background 2 "b"
    (MemoryTimeCapsule.Store Background 1 "b" "w" 50
       {[ "a" := Capsule.mk "v" 9 0 ]}).2
  = (None, {[ "a" := Capsule.mk "v" 9 0 ]}).
Proof.
  destruct (Store_then_Delete Background Background 1 2 "b" "w" 50
              {[ "a" := Capsule.mk "v" 9 0 ]}
              eq_refl eq_refl ltac:(discriminate)) as (_ & Hback).
  apply Hback. reflexivity.
Defined.

(** ** Keys are independent *)

(** X4. A [Store], [Delay] or [Delete] on key [k], under any context and
    whether it succeeds or not, changes nothing of what [Open], [Peek] and
    [Exists] return for another key [k']. *)
Theorem other_keys_unaffected {T : Type} `{Zero T}
    (ctx ctx' : Context) (now now' : time.Time) (k k' : string) (v : T)
    (u : time.Time) (d : time.Duration) (tc : gmap string (Capsule.t T)) :
  k' ≠ k ->
  let after_store := (MemoryTimeCapsule.Store ctx now k v u tc).2 in
  let after_delay := (MemoryTimeCapsule.Delay ctx now k d tc).2 in
  let after_delete := (MemoryTimeCapsule.Delete ctx now k tc).2 in
  ((MemoryTimeCapsule.Open ctx' now' k' after_store).1
   = (MemoryTimeCapsule.Open ctx' now' k' tc).1
   /\ (MemoryTimeCapsule.Peek ctx' now' k' after_store).1
      = (MemoryTimeCapsule.Peek ctx' now' k' tc).1
   /\ (MemoryTimeCapsule.Exists ctx' now' k' after_store).1
      = (MemoryTimeCapsule.Exists ctx' now' k' tc).1)
  /\ ((MemoryTimeCapsule.Open ctx' now' k' after_delay).1
      = (MemoryTimeCapsule.Open ctx' now' k' tc).1
      /\ (MemoryTimeCapsule.Peek ctx' now' k' after_delay).1
         = (MemoryTimeCapsule.Peek ctx' now' k' tc).1
      /\ (MemoryTimeCapsule.Exists ctx' now' k' after_delay).1
         = (MemoryTimeCapsule.Exists ctx' now' k' tc).1)
  /\ ((MemoryTimeCapsule.Open ctx' now' k' after_delete).1
      = (MemoryTimeCapsule.Open ctx' now' k' tc).1
      /\ (MemoryTimeCapsule.Peek ctx' now' k' after_delete).1
         = (MemoryTimeCapsule.Peek ctx' now' k' tc).1
      /\ (MemoryTimeCapsule.Exists ctx' now' k' after_delete).1
         = (MemoryTimeCapsule.Exists ctx' now' k' tc).1).
Proof.
  intros Hne. cbv zeta.
  pose proof (Store_lookup_ne ctx now k v u tc k' Hne) as Hs.
  pose proof (Delay_lookup_ne ctx now k d tc k' Hne) as Hd.
  pose proof (Delete_lookup_ne ctx now k tc k' Hne) as Hx.
  repeat split;
    first [by apply Open_lookup | by apply Peek_lookup | by apply Exists_lookup].
Qed.

(** Overwriting "a" with a locked capsule leaves "b" readable. *)
Lemma other_keys_unaffected_witness :
  (MemoryTimeCapsule.Open Background 5 "b"
     (MemoryTimeCapsule.Store Background 5 "a" "new" 100
        {[ "a" := Capsule.mk "old" 1 0; "b" := Capsule.mk "keep" 2 0 ]}).2).1
  = ("keep", None).
Proof.
  destruct (other_keys_unaffected Background Background 5 5 "a" "b" "new"
              100 0
              {[ "a" := Capsule.mk "old" 1 0; "b" := Capsule.mk "keep" 2 0 ]}
              ltac:(discriminate)) as ((Hopen & _) & _).
  rewrite Hopen. reflexivity.
Defined.

(** ** The reading operations agree *)

(** X5. [Open], [Peek] and [Exists] agree at every context, instant, key and
    store: [Open] succeeds exactly when [Peek] succeeds and reports the
    capsule unlocked; [Exists] is [true] exactly when [Peek] succeeds;
    [Peek] succeeds exactly when [Delay] and [Delete] would succeed; and
    under a live context [Open] fails with [ErrCapsuleLocked] exactly when
    [Peek] succeeds and reports the capsule locked. *)
Theorem reads_agree {T : Type} `{Zero T}
    (ctx : Context) (now : time.Time) (k : string) (d : time.Duration)
    (tc : gmap string (Capsule.t T)) :
  ((MemoryTimeCapsule.Open ctx now k tc).1.2 = None
   <-> (MemoryTimeCapsule.Peek ctx now k tc).1.2 = None
       /\ Metadata.IsLocked (MemoryTimeCapsule.Peek ctx now k tc).1.1 = false)
  /\ ((MemoryTimeCapsule.Exists ctx now k tc).1 = true
      <-> (MemoryTimeCapsule.Peek ctx now k tc).1.2 = None)
  /\ ((MemoryTimeCapsule.Peek ctx now k tc).1.2 = None
      <-> (MemoryTimeCapsule.Delay ctx now k d tc).1 = None)
  /\ ((MemoryTimeCapsule.Peek ctx now k tc).1.2 = None
      <-> (MemoryTimeCapsule.Delete ctx now k tc).1 = None)
  /\ (Err ctx = None ->
      ((MemoryTimeCapsule.Open ctx now k tc).1.2 = Some ErrCapsuleLocked
       <-> (MemoryTimeCapsule.Peek ctx now k tc).1.2 = None
           /\ Metadata.IsLocked (MemoryTimeCapsule.Peek ctx now k tc).1.1
              = true)).
Proof.
  unfold MemoryTimeCapsule.Open, MemoryTimeCapsule.Peek,
    MemoryTimeCapsule.Exists, MemoryTimeCapsule.Delay,
    MemoryTimeCapsule.Delete.
  destruct (Err ctx) as [e|].
  { cbn. repeat split; try done; intros []; done. }
  case_decide.
  { cbn. repeat split; try done; intros []; done. }
  destruct (tc !! k) as [c|]; cbn.
  - destruct (time.Before now (Capsule.UnlockTime c)); cbn;
      repeat split; try done; intros []; done.
  - repeat split; try done; intros []; done.
Qed.

(** A locked capsule: [Peek] succeeds and reports it locked, [Open] fails
    with [ErrCapsuleLocked], [Exists] is [true]. *)
Lemma reads_agree_witness :
  (MemoryTimeCapsule.Open Background 10 "x"
     {[ "x" := Capsule.mk "v" 100 0 ]}).1.2 = Some ErrCapsuleLocked
  /\ (MemoryTimeCapsule.Exists Background 10 "x"
        {[ "x" := Capsule.mk "v" 100 0 ]}).1 = true.
Proof.
  destruct (reads_agree Background 10 "x" 0 {[ "x" := Capsule.mk "v" 100 0 ]})
    as (_ & Hex & _ & _ & Hlocked).
  split.
  - apply (Hlocked eq_refl). split; reflexivity.
  - apply Hex. reflexivity.
Defined.

(** X6. Unlocking is permanent as far as the clock goes: on a given store,
    if [Open] succeeds at instant [now] it succeeds with the same value at
    every later instant, and if [Peek] reports a capsule unlocked at [now]
    it reports it unlocked at every later instant. *)
Theorem unlocked_stays_unlocked {T : Type} `{Zero T}
    (ctx : Context) (now now' : time.Time) (k : string)
    (tc : gmap string (Capsule.t T)) :
  now <= now' ->
  ((MemoryTimeCapsule.Open ctx now k tc).1.2 = None ->
   MemoryTimeCapsule.Open ctx now' k tc = MemoryTimeCapsule.Open ctx now k tc)
  /\ ((MemoryTimeCapsule.Peek ctx now k tc).1.2 = None ->
      Metadata.IsLocked (MemoryTimeCapsule.Peek ctx now k tc).1.1 = false ->
      MemoryTimeCapsule.Peek ctx now' k tc = MemoryTimeCapsule.Peek ctx now k tc).
Proof.
  intros Hle.
  unfold MemoryTimeCapsule.Open, MemoryTimeCapsule.Peek, time.Before.
  destruct (Err ctx) as [e|]; [done|].
  case_decide; [done|].
  destruct (tc !! k) as [c|]; [|done].
  destruct (now <? Capsule.UnlockTime c) eqn:Hlock; cbn.
  - split; [discriminate|]. intros _. discriminate.
  - apply Z.ltb_ge in Hlock.
    assert ((now' <? Capsule.UnlockTime c) = false) as -> by (apply Z.ltb_ge; lia).
    done.
Qed.

Lemma unlocked_stays_unlocked_witness :
  MemoryTimeCapsule.Open Background 150 "x" {[ "x" := Capsule.mk "hello" 100 0 ]}
  = MemoryTimeCapsule.Open Background 100 "x" {[ "x" := Capsule.mk "hello" 100 0 ]}.
Proof.
  destruct (unlocked_stays_unlocked Background 100 150 "x"
              {[ "x" := Capsule.mk "hello" 100 0 ]} ltac:(lia)) as (Hopen & _).
  apply Hopen. reflexivity.
Defined.

(** ** Delay and Store against Open *)

(** X7. Under live contexts, for a non-empty key with a record: after
    [Delay k d] at instant [now], [Open k] at instant [now'] returns the
    record's value when [now + d <= now'] and [ErrCapsuleLocked] otherwise,
    whatever the unlock time was.  So a delay that is zero or negative
    opens a locked capsule on the spot, and a positive one locks an
    unlocked capsule again. *)
Theorem Open_after_Delay {T : Type} `{Zero T}
    (ctx ctx' : Context) (now now' : time.Time) (k : string)
    (d : time.Duration) (c : Capsule.t T) (tc : gmap string (Capsule.t T)) :
  Err ctx = None -> Err ctx' = None -> k ≠ "" -> tc !! k = Some c ->
  (MemoryTimeCapsule.Open ctx' now' k
     (MemoryTimeCapsule.Delay ctx now k d tc).2).1
  = (if now' <? now + d then (zero, Some ErrCapsuleLocked)
     else (Capsule.Value c, None))
  /\ (d <= 0 ->
      (MemoryTimeCapsule.Open ctx' now k
         (MemoryTimeCapsule.Delay ctx now k d tc).2).1
      = (Capsule.Value c, None))
  /\ (0 < d ->
      (MemoryTimeCapsule.Open ctx' now k
         (MemoryTimeCapsule.Delay ctx now k d tc).2).1
      = (zero, Some ErrCapsuleLocked)).
Proof.
  intros Hctx Hctx' Hk Hc.
  assert (Hopen : forall t,
    (MemoryTimeCapsule.Open ctx' t k
       (MemoryTimeCapsule.Delay ctx now k d tc).2).1
    = (if t <? now + d then (zero, Some ErrCapsuleLocked)
       else (Capsule.Value c, None))).
  { intros t. rewrite Delay_live, Hc by done. cbn [snd].
    rewrite Open_live, lookup_insert_eq by done. cbn.
    by destruct (t <? now + d). }
  split; [apply Hopen|]. split.
  - intros Hd. rewrite Hopen.
    by assert ((now <? now + d) = false) as -> by (apply Z.ltb_ge; lia).
  - intros Hd. rewrite Hopen.
    by assert ((now <? now + d) = true) as -> by (apply Z.ltb_lt; lia).
Qed.

(** A capsule locked until 100 is delayed by 0 at instant 10 and opens at
    instant 10. *)
Lemma Open_after_Delay_witness :
  (MemoryTimeCapsule.Open Background 10 "x"
     {[ "x" := Capsule.mk "secret" 100 0 ]}).1 = ("", Some ErrCapsuleLocked)
  /\ (MemoryTimeCapsule.Open Background 10 "x"
        (MemoryTimeCapsule.Delay Background 10 "x" 0
           {[ "x" := Capsule.mk "secret" 100 0 ]}).2).1 = ("secret", None).
Proof.
  split; [reflexivity|].
  destruct (Open_after_Delay Background Background 10 10 "x" 0
              (Capsule.mk "secret" 100 0)
              {[ "x" := Capsule.mk "secret" 100 0 ]}
              eq_refl eq_refl ltac:(discriminate) eq_refl) as (_ & Hzero & _).
  apply Hzero. lia.
Defined.

(** X8. Under live contexts and for a non-empty key: right after
    [Store k v u] at instant [now0] the capsule exists, [Peek] at instant
    [now] returns the metadata [(u, now0, now < u)], and [Open] at an
    instant before [u] fails with [ErrCapsuleLocked]; a [Store] with an
    unlock time in the past is accepted and the capsule opens at once. *)
Theorem Store_then_read {T : Type} `{Zero T}
    (ctx ctx' : Context) (now0 now : time.Time) (k : string) (v : T)
    (u : time.Time) (tc : gmap string (Capsule.t T)) :
  Err ctx = None -> Err ctx' = None -> k ≠ "" ->
  (MemoryTimeCapsule.Exists ctx' now k
     (MemoryTimeCapsule.Store ctx now0 k v u tc).2).1 = true
  /\ (MemoryTimeCapsule.Peek ctx' now k
        (MemoryTimeCapsule.Store ctx now0 k v u tc).2).1
     = (Metadata.mk u now0 (now <? u), None)
  /\ (now < u ->
      (MemoryTimeCapsule.Open ctx' now k
         (MemoryTimeCapsule.Store ctx now0 k v u tc).2).1
      = (zero, Some ErrCapsuleLocked))
  /\ (u <= now0 ->
      (MemoryTimeCapsule.Open ctx' now0 k
         (MemoryTimeCapsule.Store ctx now0 k v u tc).2).1
      = (v, None)).
Proof.
  intros Hctx Hctx' Hk. rewrite Store_live by done. cbn [snd].
  rewrite Exists_live, Peek_live, !Open_live, lookup_insert_eq by done.
  cbn. split; [done|]. split; [done|]. split.
  - intros Hlt. by apply Z.ltb_lt in Hlt as ->.
  - intros Hge. by apply Z.ltb_ge in Hge as ->.
Qed.

(** The first scenario of the package's tests, in milliseconds. *)
Lemma Store_then_read_witness :
  (MemoryTimeCapsule.Open Background 0 "test"
     (MemoryTimeCapsule.Store Background 0 "test" "hello" 100 ∅).2).1
  = ("", Some ErrCapsuleLocked).
Proof.
  destruct (Store_then_read Background Background 0 0 "test" "hello" 100 ∅
              eq_refl eq_refl ltac:(discriminate)) as (_ & _ & Hlocked & _).
  apply Hlocked. lia.
Defined.

(** ** Sequences of calls *)

Section Runs.
Context {T : Type} `{Zero T}.
Implicit Types (c : Client.Call (T := T)) (cs : list (Client.Call (T := T))).
Implicit Types (tc : gmap string (Capsule.t T)) (k : string).

Lemma run_app cs1 cs2 tc :
  Client.run (cs1 ++ cs2) tc = Client.run cs2 (Client.run cs1 tc).
Proof. unfold Client.run. apply foldl_app. Qed.

Lemma run_cons c cs tc :
  Client.run (c :: cs) tc = Client.run cs (Client.apply c tc).
Proof. reflexivity. Qed.

(** No call puts or removes a record under the empty key. *)
Lemma apply_empty_key c tc : Client.apply c tc !! "" = tc !! "".
Proof.
  destruct c as [ctx now key v u|ctx now key|ctx now key|ctx now key d
                |ctx now key|ctx now key]; cbn [Client.apply].
  - destruct (decide (key = "")) as [->|Hne]; [|by apply Store_lookup_ne].
    unfold MemoryTimeCapsule.Store. by destruct (Err ctx).
  - by rewrite Open_pure.
  - by rewrite Peek_pure.
  - destruct (decide (key = "")) as [->|Hne]; [|by apply Delay_lookup_ne].
    unfold MemoryTimeCapsule.Delay. by destruct (Err ctx).
  - destruct (decide (key = "")) as [->|Hne]; [|by apply Delete_lookup_ne].
    unfold MemoryTimeCapsule.Delete. by destruct (Err ctx).
  - by rewrite Exists_pure.
Qed.

(** A call that is not a [Delete] of [k] does not remove the record of [k]. *)
Lemma apply_keeps_record c tc k :
  Client.deletes k c = false -> is_Some (tc !! k) ->
  is_Some (Client.apply c tc !! k).
Proof.
  intros Hdel Hk.
  destruct c as [ctx now key v u|ctx now key|ctx now key|ctx now key d
                |ctx now key|ctx now key]; cbn [Client.apply Client.deletes] in *.
  - unfold MemoryTimeCapsule.Store.
    destruct (Err ctx); [done|]. case_decide; [done|]. cbn.
    destruct (decide (key = k)) as [->|Hne].
    + rewrite lookup_insert_eq. eauto.
    + by rewrite lookup_insert_ne.
  - by rewrite Open_pure.
  - by rewrite Peek_pure.
  - unfold MemoryTimeCapsule.Delay.
    destruct (Err ctx); [done|]. case_decide; [done|].
    destruct (tc !! key) eqn:Hkey; [|done]. cbn.
    destruct (decide (key = k)) as [->|Hne].
    + rewrite lookup_insert_eq. eauto.
    + by rewrite lookup_insert_ne.
  - apply bool_decide_eq_false in Hdel. by rewrite Delete_lookup_ne.
  - by rewrite Exists_pure.
Qed.

Lemma run_keeps_record cs : forall tc k,
  forallb (fun c => negb (Client.deletes k c)) cs = true ->
  is_Some (tc !! k) -> is_Some (Client.run cs tc !! k).
Proof.
  induction cs as [|c cs IH]; intros tc k Hcs Hk; [done|].
  cbn [forallb] in Hcs. apply andb_true_iff in Hcs as [Hc Hcs].
  rewrite run_cons. apply IH; [done|].
  apply apply_keeps_record; [|done]. by apply negb_true_iff.
Qed.

(** A call that is neither a [Store] nor a [Delete] of [k] keeps the value
    and the creation time of the record of [k]. *)
Lemma apply_keeps_value c tc k :
  Client.stores k c = false -> Client.deletes k c = false ->
  (fun r => (Capsule.Value r, Capsule.CreatedAt r)) <$> Client.apply c tc !! k
  = (fun r => (Capsule.Value r, Capsule.CreatedAt r)) <$> tc !! k.
Proof.
  intros Hst Hdel.
  destruct c as [ctx now key v u|ctx now key|ctx now key|ctx now key d
                |ctx now key|ctx now key];
    cbn [Client.apply Client.deletes Client.stores] in *.
  - apply bool_decide_eq_false in Hst. by rewrite Store_lookup_ne.
  - by rewrite Open_pure.
  - by rewrite Peek_pure.
  - unfold MemoryTimeCapsule.Delay.
    destruct (Err ctx); [done|]. case_decide; [done|].
    destruct (tc !! key) as [r|] eqn:Hkey; [|done]. cbn.
    destruct (decide (key = k)) as [->|Hne].
    + by rewrite lookup_insert_eq, Hkey.
    + by rewrite lookup_insert_ne.
  - apply bool_decide_eq_false in Hdel. by rewrite Delete_lookup_ne.
  - by rewrite Exists_pure.
Qed.

(** A call made at an instant up to [N] creates no record later than [N]. *)
Lemma apply_created_before (N : time.Time) c tc :
  Client.clock c <= N ->
  (forall k r, tc !! k = Some r -> Capsule.CreatedAt r <= N) ->
  forall k r, Client.apply c tc !! k = Some r -> Capsule.CreatedAt r <= N.
Proof.
  intros Hclock Hinv k r.
  destruct c as [ctx now key v u|ctx now key|ctx now key|ctx now key d
                |ctx now key|ctx now key]; cbn [Client.apply Client.clock] in *.
  - unfold MemoryTimeCapsule.Store.
    destruct (Err ctx); [apply Hinv|]. case_decide; [apply Hinv|]. cbn.
    destruct (decide (key = k)) as [->|Hne].
    + rewrite lookup_insert_eq. by intros [= <-].
    + rewrite lookup_insert_ne by done. apply Hinv.
  - rewrite Open_pure. apply Hinv.
  - rewrite Peek_pure. apply Hinv.
  - unfold MemoryTimeCapsule.Delay.
    destruct (Err ctx); [apply Hinv|]. case_decide; [apply Hinv|].
    destruct (tc !! key) as [r0|] eqn:Hkey; [|apply Hinv]. cbn.
    destruct (decide (key = k)) as [->|Hne].
    + rewrite lookup_insert_eq. intros [= <-]. cbn. by apply (Hinv k r0).
    + rewrite lookup_insert_ne by done. apply Hinv.
  - unfold MemoryTimeCapsule.Delete.
    destruct (Err ctx); [apply Hinv|]. case_decide; [apply Hinv|].
    destruct (tc !! key); [|apply Hinv]. cbn.
    intros Hr. apply lookup_delete_Some in Hr as [_ Hr]. by apply (Hinv k r).
  - rewrite Exists_pure. apply Hinv.
Qed.

Lemma run_created_before (N : time.Time) cs : forall tc,
  Forall (fun c => Client.clock c <= N) cs ->
  (forall k r, tc !! k = Some r -> Capsule.CreatedAt r <= N) ->
  forall k r, Client.run cs tc !! k = Some r -> Capsule.CreatedAt r <= N.
Proof.
  intros tc Hcs. revert tc.
  induction Hcs as [|c cs Hc Hcs IH]; intros tc Hinv; [done|].
  rewrite run_cons. apply IH. by apply apply_created_before.
Qed.

Lemma run_keeps_value cs : forall tc k,
  forallb (fun c => negb (Client.stores k c || Client.deletes k c)) cs = true ->
  (fun r => (Capsule.Value r, Capsule.CreatedAt r)) <$> Client.run cs tc !! k
  = (fun r => (Capsule.Value r, Capsule.CreatedAt r)) <$> tc !! k.
Proof.
  induction cs as [|c cs IH]; intros tc k Hcs; [done|].
  cbn [forallb] in Hcs. apply andb_true_iff in Hcs as [Hc Hcs].
  apply negb_true_iff, orb_false_iff in Hc as [Hst Hdel].
  rewrite run_cons, IH by done. by apply apply_keeps_value.
Qed.

(** Where the creation time of a record comes from: the record the key had
    before the call, or the clock reading of the call when the call is a
    [Store] of the key that went through. *)
Lemma apply_origin c tc k r :
  Client.apply c tc !! k = Some r ->
  (exists r0, tc !! k = Some r0 /\ Capsule.CreatedAt r = Capsule.CreatedAt r0)
  \/ (exists ctx v u,
        c = Client.CallStore ctx (Capsule.CreatedAt r) k v u
        /\ Err ctx = None /\ k ≠ "").
Proof.
  destruct c as [ctx now key v u|ctx now key|ctx now key|ctx now key d
                |ctx now key|ctx now key]; cbn [Client.apply].
  - unfold MemoryTimeCapsule.Store.
    destruct (Err ctx) eqn:Hctx; [intros; left; eauto|].
    case_decide as Hkey; [intros; left; eauto|]. cbn.
    destruct (decide (key = k)) as [->|Hne].
    + rewrite lookup_insert_eq. intros [= <-]. right. cbn.
      by exists ctx, v, u.
    + rewrite lookup_insert_ne by done. intros; left; eauto.
  - rewrite Open_pure. intros; left; eauto.
  - rewrite Peek_pure. intros; left; eauto.
  - unfold MemoryTimeCapsule.Delay.
    destruct (Err ctx); [intros; left; eauto|].
    case_decide; [intros; left; eauto|].
    destruct (tc !! key) as [r0|] eqn:Hkey; [|intros; left; eauto]. cbn.
    destruct (decide (key = k)) as [->|Hne].
    + rewrite lookup_insert_eq. intros [= <-]. left. eauto.
    + rewrite lookup_insert_ne by done. intros; left; eauto.
  - unfold MemoryTimeCapsule.Delete.
    destruct (Err ctx); [intros; left; eauto|].
    case_decide; [intros; left; eauto|].
    destruct (tc !! key); [|intros; left; eauto]. cbn.
    intros Hr. apply lookup_delete_Some in Hr as [_ Hr]. left. eauto.
  - rewrite Exists_pure. intros; left; eauto.
Qed.

Lemma run_origin cs : forall tc k r,
  Client.run cs tc !! k = Some r ->
  (exists r0, tc !! k = Some r0 /\ Capsule.CreatedAt r = Capsule.CreatedAt r0)
  \/ (exists ctx v u,
        Client.CallStore ctx (Capsule.CreatedAt r) k v u ∈ cs
        /\ Err ctx = None /\ k ≠ "").
Proof.
  induction cs as [|c cs IH]; intros tc k r Hr.
  - left. eauto.
  - rewrite run_cons in Hr.
    destruct (IH _ _ _ Hr) as [(r1 & Hr1 & Heq)|(ctx & v & u & Hin & Hlive)].
    + destruct (apply_origin _ _ _ _ Hr1)
        as [(r0 & Hr0 & Heq0)|(ctx & v & u & -> & Hlive)].
      * left. exists r0. split; [done|]. congruence.
      * right. exists ctx, v, u. rewrite Heq. split; [|done].
        apply list_elem_of_here.
    + right. exists ctx, v, u. split; [|done]. by apply list_elem_of_further.
Qed.

End Runs.

(** X9. No sequence of calls, whatever the contexts, keys and instants, puts
    a record under the empty key: a store without such a record, and so
    the store [New] returns, has none after any run. *)
Theorem empty_key_never_stored {T : Type} `{Zero T}
    (cs : list (Client.Call (T := T))) (tc : gmap string (Capsule.t T)) :
  Client.run cs tc !! "" = tc !! ""
  /\ Client.run cs MemoryTimeCapsule.New !! "" = None.
Proof.
  assert (Hrun : forall tc0 : gmap string (Capsule.t T),
             Client.run cs tc0 !! "" = tc0 !! "").
  { induction cs as [|c cs IH]; intros tc0; [done|].
    by rewrite run_cons, IH, apply_empty_key. }
  split; [apply Hrun|]. by rewrite Hrun.
Qed.

(** X10. A record disappears only through [Delete]: along a run with no
    [Delete] of [k], a record present under [k] at the start is still
    there at the end, and a key stored by a [Store] of the run, made under
    a live context with a non-empty key, exists at the end. *)
Theorem record_survives_without_Delete {T : Type} `{Zero T}
    (cs : list (Client.Call (T := T))) (tc : gmap string (Capsule.t T))
    (k : string) :
  forallb (fun c => negb (Client.deletes k c)) cs = true ->
  (is_Some (tc !! k) -> is_Some (Client.run cs tc !! k))
  /\ (forall ctx now v u ctx' now',
      Client.CallStore ctx now k v u ∈ cs ->
      Err ctx = None -> Err ctx' = None -> k ≠ "" ->
      (MemoryTimeCapsule.Exists ctx' now' k (Client.run cs tc)).1 = true).
Proof.
  intros Hcs. split; [by apply run_keeps_record|].
  intros ctx now v u ctx' now' Hin Hctx Hctx' Hk.
  apply list_elem_of_split in Hin as (cs1 & cs2 & ->).
  rewrite forallb_app in Hcs. apply andb_true_iff in Hcs as [_ Hcs2].
  cbn [forallb] in Hcs2. apply andb_true_iff in Hcs2 as [_ Hcs2].
  rewrite run_app, run_cons. cbn [Client.apply].
  destruct (run_keeps_record cs2
              (MemoryTimeCapsule.Store ctx now k v u (Client.run cs1 tc)).2
              k Hcs2) as [r Hr].
  { rewrite Store_live by done. cbn. rewrite lookup_insert_eq. eauto. }
  by rewrite Exists_live, Hr.
Qed.

(** Three stores in a row, then a delete of the second key: the first and
    the third key exist. *)
Lemma record_survives_without_Delete_witness :
  (MemoryTimeCapsule.Exists Background 9 "key-0"
     (Client.run
        [Client.CallStore Background 0 "key-0" 0 0;
         Client.CallStore Background 1 "key-1" 1 1;
         Client.CallStore Background 2 "key-2" 2 2;
         Client.CallDelete Background 3 "key-1"]
        MemoryTimeCapsule.New)).1 = true.
Proof.
  destruct (record_survives_without_Delete
              [Client.CallStore Background 0 "key-0" 0 0;
               Client.CallStore Background 1 "key-1" 1 1;
               Client.CallStore Background 2 "key-2" 2 2;
               Client.CallDelete Background 3 "key-1"]
              MemoryTimeCapsule.New "key-0" eq_refl) as (_ & Hstored).
  apply (Hstored Background 0 0 0 Background 9);
    [apply list_elem_of_here|reflexivity|reflexivity|discriminate].
Defined.

(** X11. The value and the creation time of a record change only through
    [Store] and [Delete]: along a run with no [Store] and no [Delete] of
    [k], which may hold any number of [Delay], [Open], [Peek] and [Exists]
    calls of [k] and any calls of other keys, the record of [k] ends with
    the value and the creation time it started with. *)
Theorem value_and_creation_time_are_kept {T : Type} `{Zero T}
    (cs : list (Client.Call (T := T))) (tc : gmap string (Capsule.t T))
    (k : string) :
  forallb (fun c => negb (Client.stores k c || Client.deletes k c)) cs = true ->
  (fun r => (Capsule.Value r, Capsule.CreatedAt r)) <$> Client.run cs tc !! k
  = (fun r => (Capsule.Value r, Capsule.CreatedAt r)) <$> tc !! k.
Proof.
  revert tc. induction cs as [|c cs IH]; intros tc Hcs; [done|].
  cbn [forallb] in Hcs. apply andb_true_iff in Hcs as [Hc Hcs].
  apply negb_true_iff, orb_false_iff in Hc as [Hst Hdel].
  rewrite run_cons, IH by done. by apply apply_keeps_value.
Qed.

(** Two delays, a peek and a store under another key leave value and
    creation time of "x" alone; only the unlock time moved. *)
Lemma value_and_creation_time_are_kept_witness :
  (fun r => (Capsule.Value r, Capsule.CreatedAt r)) <$>
    Client.run
      [Client.CallDelay Background 10 "x" 50;
       Client.CallPeek Background 11 "x";
       Client.CallStore Background 12 "y" "other" 0;
       Client.CallDelay Background 20 "x" 5]
      {[ "x" := Capsule.mk "v" 100 3 ]} !! "x"
  = Some ("v", 3).
Proof.
  rewrite (value_and_creation_time_are_kept
             [Client.CallDelay Background 10 "x" 50;
              Client.CallPeek Background 11 "x";
              Client.CallStore Background 12 "y" "other" 0;
              Client.CallDelay Background 20 "x" 5]
             {[ "x" := Capsule.mk "v" 100 3 ]} "x" eq_refl).
  reflexivity.
Defined.

(** X12. The creation time of a record is the clock reading of the [Store]
    that wrote it.  Every record of the store a run leaves has the creation
    time of the record its key had at the start, or the clock reading of a
    [Store] of its key made in the run under a live context.  After a
    [Store] of [k] that went through, followed by calls among which there
    is no [Store] and no [Delete] of [k], the record of [k] has the value
    of that [Store] and its clock reading as creation time.  So no record
    is created in the future: with every record at the start and every
    call of the run at or before [N], every record at the end was created
    at or before [N]. *)
Theorem creation_times_are_clock_readings {T : Type} `{Zero T}
    (cs : list (Client.Call (T := T))) (tc : gmap string (Capsule.t T)) :
  (forall k r, Client.run cs tc !! k = Some r ->
   (exists r0, tc !! k = Some r0
               /\ Capsule.CreatedAt r = Capsule.CreatedAt r0)
   \/ (exists ctx v u,
         Client.CallStore ctx (Capsule.CreatedAt r) k v u ∈ cs
         /\ Err ctx = None /\ k ≠ ""))
  /\ (forall cs1 cs2 ctx now k v u,
      cs = (cs1 ++ Client.CallStore ctx now k v u :: cs2)%list ->
      Err ctx = None -> k ≠ "" ->
      forallb (fun c => negb (Client.stores k c || Client.deletes k c)) cs2
      = true ->
      (fun r => (Capsule.Value r, Capsule.CreatedAt r)) <$>
        Client.run cs tc !! k
      = Some (v, now))
  /\ (forall N,
      Forall (fun c => Client.clock c <= N) cs ->
      (forall k r, tc !! k = Some r -> Capsule.CreatedAt r <= N) ->
      forall k r, Client.run cs tc !! k = Some r -> Capsule.CreatedAt r <= N).
Proof.
  split; [apply run_origin|]. split.
  - intros cs1 cs2 ctx now k v u -> Hctx Hk Hcs2.
    rewrite run_app, run_cons, run_keeps_value by done.
    cbn [Client.apply]. rewrite Store_live by done. cbn [snd].
    by rewrite lookup_insert_eq.
  - intros N. apply run_created_before.
Qed.

(** Stored at instant 1, overwritten at instant 5 and delayed at instant 7,
    the capsule holds the second value and was created at 5. *)
Lemma creation_times_are_clock_readings_witness :
  (fun r => (Capsule.Value r, Capsule.CreatedAt r)) <$>
    Client.run
      [Client.CallStore Background 1 "a" "old" 500;
       Client.CallStore Background 5 "a" "new" 600;
       Client.CallDelay Background 7 "a" 900]
      MemoryTimeCapsule.New !! "a"
  = Some ("new", 5).
Proof.
  destruct (creation_times_are_clock_readings
              [Client.CallStore Background 1 "a" "old" 500;
               Client.CallStore Background 5 "a" "new" 600;
               Client.CallDelay Background 7 "a" 900]
              MemoryTimeCapsule.New) as (_ & Hlast & _).
  apply (Hlast [Client.CallStore Background 1 "a" "old" 500]
               [Client.CallDelay Background 7 "a" 900]
               Background 5 "a" "new" 600);
    [reflexivity|reflexivity|discriminate|reflexivity].
Defined.

(** X13. Calls about different keys commute: made in either order on the
    same store, under their own contexts and clock readings, they leave
    the same store. *)
Theorem calls_on_distinct_keys_commute {T : Type} `{Zero T}
    (c1 c2 : Client.Call (T := T)) (tc : gmap string (Capsule.t T)) :
  Client.key c1 ≠ Client.key c2 ->
  Client.apply c2 (Client.apply c1 tc) = Client.apply c1 (Client.apply c2 tc).
Proof.
  assert (Hne : forall (c : Client.Call (T := T)) m j,
             Client.key c ≠ j -> Client.apply c m !! j = m !! j).
  { intros c m j Hj.
    destruct c; cbn [Client.apply Client.key] in *;
      first [ by apply Store_lookup_ne | by apply Delay_lookup_ne
            | by apply Delete_lookup_ne | by rewrite Open_pure
            | by rewrite Peek_pure | by rewrite Exists_pure ]. }
  assert (Heq : forall (c : Client.Call (T := T)) m m',
             m !! Client.key c = m' !! Client.key c ->
             Client.apply c m !! Client.key c
             = Client.apply c m' !! Client.key c).
  { intros c m m' Hm.
    destruct c as [ctx now k v u|ctx now k|ctx now k|ctx now k d
                  |ctx now k|ctx now k]; cbn [Client.apply Client.key] in *.
    - unfold MemoryTimeCapsule.Store.
      destruct (Err ctx); [done|]. case_decide; [done|]. cbn.
      by rewrite !lookup_insert_eq.
    - by rewrite !Open_pure.
    - by rewrite !Peek_pure.
    - unfold MemoryTimeCapsule.Delay.
      destruct (Err ctx); [done|]. case_decide; [done|].
      rewrite Hm. destruct (m' !! k) as [r|] eqn:Hk; [|cbn; congruence].
      cbn. by rewrite !lookup_insert_eq.
    - unfold MemoryTimeCapsule.Delete.
      destruct (Err ctx); [done|]. case_decide; [done|].
      rewrite Hm. destruct (m' !! k) as [r|] eqn:Hk; [|cbn; congruence].
      cbn. by rewrite !lookup_delete_eq.
    - by rewrite !Exists_pure. }
  intros Hkeys. apply map_eq. intros j.
  destruct (decide (Client.key c1 = j)) as [<-|H1].
  - rewrite Hne by done. apply Heq. by rewrite Hne.
  - destruct (decide (Client.key c2 = j)) as [<-|H2].
    + rewrite (Hne c1 (Client.apply c2 tc)) by done.
      apply Heq. by rewrite Hne.
    + by rewrite !Hne.
Qed.

Lemma calls_on_distinct_keys_commute_witness :
  Client.apply (Client.CallDelete Background 2 "b")
    (Client.apply (Client.CallStore Background 1 "a" "v" 9)
       {[ "b" := Capsule.mk "w" 5 0 ]})
  = Client.apply (Client.CallStore Background 1 "a" "v" 9)
      (Client.apply (Client.CallDelete Background 2 "b")
         {[ "b" := Capsule.mk "w" 5 0 ]}).
Proof.
  apply (calls_on_distinct_keys_commute
           (Client.CallStore Background 1 "a" "v" 9)
           (Client.CallDelete Background 2 "b")).
  discriminate.
Defined.

(** ** WaitForUnlock, when nobody interferes *)

(** X14. Under a live context the in-memory [WaitForUnlock] returns at once,
    without arming a timer, [ErrInvalidKey] for the empty key and
    [ErrCapsuleNotFound] for a key without record.  For a locked capsule it
    arms one timer, for the time left capped at the largest [Duration].
    With the store found unchanged when the timer fires and a live
    context: if the time left was a [Duration] and the clock has advanced
    by at least the timer's duration, the call returns the value; if the
    clock is still before the unlock time, as it is when the capped timer
    of a capsule further away than the largest [Duration] fires on time,
    the call returns [ErrCapsuleLocked] and does not wait again.  If the
    context is done first, or is found cancelled when the timer fires, the
    call returns the context's error. *)
Theorem WaitForUnlock_delivers {T : Type} `{Zero T}
    (ctx : Context) (now : time.Time) (k : string)
    (tc : gmap string (Capsule.t T)) :
  Err ctx = None ->
  MemoryTimeCapsule.WaitForUnlock ctx now "" tc
  = Return (zero, Some ErrInvalidKey) tc
  /\ (k ≠ "" -> tc !! k = None ->
      MemoryTimeCapsule.WaitForUnlock ctx now k tc
      = Return (zero, Some ErrCapsuleNotFound) tc)
  /\ (forall c, k ≠ "" -> tc !! k = Some c -> now < Capsule.UnlockTime c ->
      exists kont,
        MemoryTimeCapsule.WaitForUnlock ctx now k tc
        = Select (Z.min time.maxDuration (Capsule.UnlockTime c - now)) kont
        /\ (forall ctx' now', Err ctx' = None ->
            Capsule.UnlockTime c - now <= time.maxDuration ->
            now + Z.min time.maxDuration (Capsule.UnlockTime c - now) <= now' ->
            kont (TimerFired ctx' now' tc) = Return (Capsule.Value c, None) tc)
        /\ (forall ctx' now', Err ctx' = None ->
            now' < Capsule.UnlockTime c ->
            kont (TimerFired ctx' now' tc)
            = Return (zero, Some ErrCapsuleLocked) tc)
        /\ (forall ctx', Err ctx' = None ->
            time.maxDuration < Capsule.UnlockTime c - now ->
            kont (TimerFired ctx'
                    (now + Z.min time.maxDuration (Capsule.UnlockTime c - now))
                    tc)
            = Return (zero, Some ErrCapsuleLocked) tc)
        /\ (forall e tc', kont (CtxDone e tc') = Return (zero, Some e) tc')
        /\ (forall e now' tc',
            kont (TimerFired (cancelled e) now' tc')
            = Return (zero, Some e) tc')).
Proof.
  intros Hctx. split; [|split].
  - unfold MemoryTimeCapsule.WaitForUnlock, MemoryTimeCapsule.Peek.
    by rewrite Hctx.
  - intros Hk Hnone. unfold MemoryTimeCapsule.WaitForUnlock.
    by rewrite Hctx, Peek_live, Hnone.
  - intros c Hk Hc Hlt. unfold MemoryTimeCapsule.WaitForUnlock.
    rewrite Hctx, Peek_live, Hc by done.
    cbn [Metadata.IsLocked Metadata.UnlockTime].
    rewrite Until_locked by done.
    apply Z.ltb_lt in Hlt as Hltb. rewrite Hltb. cbn [negb].
    assert (Hearly : forall ctx' now', Err ctx' = None ->
              now' < Capsule.UnlockTime c ->
              MemoryTimeCapsule.Open ctx' now' k tc
              = ((zero, Some ErrCapsuleLocked), tc)).
    { intros ctx' now' Hctx' Hnow'. rewrite Open_live, Hc by done.
      by apply Z.ltb_lt in Hnow' as ->. }
    eexists. split; [reflexivity|]. split; [|split; [|split; [|split]]].
    + intros ctx' now' Hctx' Hfits Hnow'. rewrite Open_live, Hc by done.
      by assert ((now' <? Capsule.UnlockTime c) = false) as ->
        by (apply Z.ltb_ge; lia).
    + intros ctx' now' Hctx' Hnow'. by rewrite Hearly.
    + intros ctx' Hctx' Hfar. rewrite Hearly; [done|done|lia].
    + done.
    + done.
Qed.

(** The package's wait test, in milliseconds: stored to unlock at 50 and
    awaited from 0, the value 42 comes after one timer of 50. *)
Lemma WaitForUnlock_delivers_witness :
  exists kont,
    MemoryTimeCapsule.WaitForUnlock Background 0 "test"
      {[ "test" := Capsule.mk 42 50 0 ]}
    = Select 50 kont
    /\ kont (TimerFired Background 50 {[ "test" := Capsule.mk 42 50 0 ]})
       = Return (42, None) {[ "test" := Capsule.mk 42 50 0 ]}.
Proof.
  destruct (WaitForUnlock_delivers Background 0 "test"
              {[ "test" := Capsule.mk 42 50 0 ]} eq_refl)
    as (_ & _ & Hlocked).
  destruct (Hlocked (Capsule.mk 42 50 0) ltac:(discriminate) eq_refl
              ltac:(reflexivity)) as (kont & Heq & Hfire & _).
  exists kont. split; [exact Heq|].
  apply Hfire; [reflexivity|discriminate|discriminate].
Defined.

(** * Further properties of the backend-delegating engine *)

(** X15. Over the in-memory backend and with a codec that never fails to
    encode and decodes what it encoded: under live contexts and for a
    non-empty key, [Store] succeeds, [Open] at an instant from the unlock
    time on returns exactly the value stored, [Open] before it fails with
    [ErrCapsuleLocked], and [Peek] returns the unlock time given and the
    instant of the [Store] as creation time. *)
Theorem Persistent_round_trip {T : Type} `{Zero T} `{Codec.t T}
    (ctx ctx' : Context) (now0 now : time.Time) (k : string) (v : T)
    (u : time.Time) (s : backend) :
  (forall x : T, (Codec.Encode x).2 = None
                 /\ Codec.Decode (Codec.Encode x).1 = (x, None)) ->
  Err ctx = None -> Err ctx' = None -> k ≠ "" ->
  (PersistentTimeCapsule.Store ctx now0 k v u s).1 = None
  /\ (u <= now ->
      (PersistentTimeCapsule.Open ctx' now k
         (PersistentTimeCapsule.Store ctx now0 k v u s).2).1 = (v, None))
  /\ (now < u ->
      (PersistentTimeCapsule.Open (T := T) ctx' now k
         (PersistentTimeCapsule.Store ctx now0 k v u s).2).1
      = (zero, Some ErrCapsuleLocked))
  /\ (PersistentTimeCapsule.Peek ctx' now k
        (PersistentTimeCapsule.Store ctx now0 k v u s).2).1
     = (Metadata.mk u now0 (now <? u), None).
Proof.
  intros Hcodec Hctx Hctx' Hk.
  destruct (Hcodec v) as [Henc Hdec].
  assert (Hstore : PersistentTimeCapsule.Store ctx now0 k v u s
                   = (None, <[k := Capsule.mk (Codec.Encode v).1 u now0]> s)).
  { unfold PersistentTimeCapsule.Store. rewrite Hctx. case_decide; [done|].
    destruct (Codec.Encode v) as [data err]. cbn in Henc. subst err.
    cbn [Storage.Store MemoryStorage]. by rewrite Store_live. }
  rewrite Hstore. cbn [fst snd].
  unfold PersistentTimeCapsule.Open, PersistentTimeCapsule.Peek.
  rewrite Hctx'. case_decide; [done|].
  cbn [Storage.Open Storage.Peek MemoryStorage].
  rewrite Open_live, Peek_live, lookup_insert_eq by done.
  cbn [Capsule.UnlockTime Capsule.Value Capsule.CreatedAt].
  split; [done|]. split; [|split; [|done]].
  - intros Hge. apply Z.ltb_ge in Hge as ->. by rewrite Hdec.
  - intros Hlt. by apply Z.ltb_lt in Hlt as ->.
Qed.

Lemma Persistent_round_trip_witness :
  (PersistentTimeCapsule.Open Background 150 "x"
     (PersistentTimeCapsule.Store Background 0 "x" hi 100 (∅ : backend)).2).1
  = (hi, None).
Proof.
  destruct (Persistent_round_trip Background Background 0 150 "x" hi 100 ∅
              ltac:(intros x; split; reflexivity)
              eq_refl eq_refl ltac:(discriminate)) as (_ & Hopen & _).
  apply Hopen. lia.
Defined.

(** X16. Over the in-memory backend the backend-delegating engine adds
    nothing but the codec: its [Peek], [Delete] and [Exists] are those of
    the in-memory engine on every input, cancelled contexts and the empty
    key included, and with the codec that keeps bytes as they are so are
    its [Store] and [Open]. *)
Theorem Persistent_adds_only_the_codec
    (ctx : Context) (now : time.Time) (k : string) (u : time.Time)
    (data : list Byte.byte) (b : backend) :
  PersistentTimeCapsule.Peek ctx now k b = MemoryTimeCapsule.Peek ctx now k b
  /\ PersistentTimeCapsule.Delete ctx now k b
     = MemoryTimeCapsule.Delete ctx now k b
  /\ PersistentTimeCapsule.Exists ctx now k b
     = MemoryTimeCapsule.Exists ctx now k b
  /\ PersistentTimeCapsule.Store ctx now k data u b
     = MemoryTimeCapsule.Store ctx now k data u b
  /\ PersistentTimeCapsule.Open ctx now k b = MemoryTimeCapsule.Open ctx now k b.
Proof.
  unfold PersistentTimeCapsule.Peek, PersistentTimeCapsule.Delete,
    PersistentTimeCapsule.Exists, PersistentTimeCapsule.Store,
    PersistentTimeCapsule.Open.
  cbn [Storage.Peek Storage.Delete Storage.Exists Storage.Store
       Storage.Open MemoryStorage Codec.Encode Codec.Decode BytesCodec].
  unfold MemoryTimeCapsule.Peek, MemoryTimeCapsule.Delete,
    MemoryTimeCapsule.Exists, MemoryTimeCapsule.Store,
    MemoryTimeCapsule.Open.
  destruct (Err ctx); [done|]. case_decide; [done|].
  destruct (b !! k) as [c|]; [|done].
  by destruct (time.Before now (Capsule.UnlockTime c)).
Qed.

(** X17. Over any backend and codec, under a live context and for a
    non-empty key, an error stops the backend-delegating operation where it
    arises and is returned as it is: [Store] with a failing encoder never
    reaches the backend; [Open] on a backend error returns the zero value
    and does not decode; [Delay] whose backend [Peek] fails calls neither
    the backend's [Open] nor its [Store]; and [Delay] that got the bytes
    returns whatever the backend's [Store] returns for these bytes and the
    unlock time [now + delay]. *)
Theorem Persistent_errors_stop_the_call {T S : Type}
    `{Zero T} `{Storage.t S} `{Codec.t T}
    (ctx : Context) (now : time.Time) (k : string) (v : T) (u : time.Time)
    (d : time.Duration) (s : S) :
  Err ctx = None -> k ≠ "" ->
  (forall e, (Codec.Encode v).2 = Some e ->
   PersistentTimeCapsule.Store ctx now k v u s = (Some e, s))
  /\ (forall e, (Storage.Open ctx now k s).1.2 = Some e ->
      PersistentTimeCapsule.Open (T := T) ctx now k s
      = ((zero, Some e), (Storage.Open ctx now k s).2))
  /\ (forall e, (Storage.Peek ctx now k s).1.2 = Some e ->
      PersistentTimeCapsule.Delay ctx now k d s
      = (Some e, (Storage.Peek ctx now k s).2))
  /\ (forall md s1 data s2,
      Storage.Peek ctx now k s = ((md, None), s1) ->
      Storage.Open ctx now k s1 = ((data, None), s2) ->
      PersistentTimeCapsule.Delay ctx now k d s
      = Storage.Store ctx now k data (now + d) s2).
Proof.
  intros Hctx Hk. split; [|split; [|split]].
  - intros e Henc. unfold PersistentTimeCapsule.Store.
    rewrite Hctx. case_decide; [done|].
    destruct (Codec.Encode v) as [data err]. cbn in Henc. by subst err.
  - intros e Hopen. unfold PersistentTimeCapsule.Open.
    rewrite Hctx. case_decide; [done|].
    destruct (Storage.Open ctx now k s) as [[data err] s1]. cbn in Hopen.
    by subst err.
  - intros e Hpeek. unfold PersistentTimeCapsule.Delay.
    rewrite Hctx. case_decide; [done|].
    destruct (Storage.Peek ctx now k s) as [[md err] s1]. cbn in Hpeek.
    by subst err.
  - intros md s1 data s2 Hpeek Hopen. unfold PersistentTimeCapsule.Delay.
    rewrite Hctx. case_decide; [done|]. by rewrite Hpeek, Hopen.
Qed.

(** An encoder that rejects its input: nothing is stored. *)
Lemma Persistent_errors_stop_the_call_witness :
  @PersistentTimeCapsule.Store Z backend MemoryStorage RejectingCodec
    Background 1 "x" 7 100 {[ "y" := Capsule.mk hi 5 0 ]}
  = (Some (ErrExternal "unsupported type"), {[ "y" := Capsule.mk hi 5 0 ]}).
Proof.
  destruct (@Persistent_errors_stop_the_call Z backend _ MemoryStorage
              RejectingCodec Background 1 "x" 7 100 0
              {[ "y" := Capsule.mk hi 5 0 ]}
              eq_refl ltac:(discriminate)) as (Hstore & _).
  apply Hstore. reflexivity.
Defined.
